(** * Blood matching model server: compatibility, screening, scoring, ranking

    A shallow embedding of [model_server.py].  Donor and recipient records
    are the parsed JSON objects the handlers receive: Python dicts with
    string keys and dynamically typed values.  Exceptions are explicit
    ([result]); the loaded model and the wall clock, which the source reads
    from the process, are arguments.

    Conventions of the embedding:
    - a Python [float] is represented by the rational it denotes ([Q]);
      NaN, the infinities and rounding error of float arithmetic are not
      represented;
    - [print] calls (logging) are dropped;
    - [np.array(list(features.values())).reshape(1, -1)] is represented by
      the list of feature values in dict order. *)

From Stdlib Require Import List String Ascii Bool ZArith QArith Qround Lia Lqa.
From Stdlib Require Import Sorting.Sorted Sorting.Permutation.
Import ListNotations.

Local Open Scope string_scope.
Local Open Scope Z_scope.
Local Open Scope list_scope.

(** ** Python values *)

Set Warnings "-register-all".

(** [int] and [float]; [bool] is kept as a constructor of [value]. *)
Inductive number :=
| Int (z : Z)
| Float (q : Q).

Inductive value :=
| VNone
| VBool (b : bool)
| VNum (n : number)
| VStr (s : string)
| VList (l : list value)
| VDict (d : list (string * value)).

(** A dict with string keys, in insertion order.  Keys are distinct in a
    parsed JSON object; lookup takes the first binding. *)
Definition dict := list (string * value).

Inductive exn :=
| AttributeError
| TypeError
| ValueError
| IndexError
| ModelError (msg : string).

Inductive result (A : Type) :=
| Return (a : A)
| Raise (e : exn).
Arguments Return {A} a.
Arguments Raise {A} e.

Definition bind {A B} (c : result A) (k : A -> result B) : result B :=
  match c with
  | Return a => k a
  | Raise e => Raise e
  end.

(** [try: c except Exception: h] *)
Definition try_except {A} (c : result A) (h : exn -> result A) : result A :=
  match c with
  | Return a => Return a
  | Raise e => h e
  end.

Notation "x <- c ;; k" := (bind c (fun x => k))
  (at level 61, c at next level, right associativity).

Definition numQ (n : number) : Q :=
  match n with
  | Int z => inject_Z z
  | Float q => q
  end.

(** Numeric reading of a value, for the values Python compares as numbers. *)
Definition as_number (v : value) : option Q :=
  match v with
  | VBool true => Some 1%Q
  | VBool false => Some 0%Q
  | VNum n => Some (numQ n)
  | _ => None
  end.

Fixpoint lookup (k : string) (d : dict) : option value :=
  match d with
  | [] => None
  | (k', v) :: rest => if String.eqb k k' then Some v else lookup k rest
  end.

(** [d.get(k)] *)
Definition get (d : dict) (k : string) : value :=
  match lookup k d with
  | Some v => v
  | None => VNone
  end.

(** [d.get(k, default)] *)
Definition get_default (d : dict) (k : string) (default : value) : value :=
  match lookup k d with
  | Some v => v
  | None => default
  end.

(** [v.get(k)] on a value that need not be a dict. *)
Definition value_get (v : value) (k : string) : result value :=
  match v with
  | VDict d => Return (get d k)
  | _ => Raise AttributeError
  end.

(** Truth value of a Python object. *)
Definition truthy (v : value) : bool :=
  match v with
  | VNone => false
  | VBool b => b
  | VNum n => negb (Qeq_bool (numQ n) 0)
  | VStr s => negb (String.eqb s "")
  | VList l => match l with [] => false | _ => true end
  | VDict d => match d with [] => false | _ => true end
  end.

(** [a == b] *)
Fixpoint py_eq (a b : value) {struct a} : bool :=
  match a, b with
  | VNone, VNone => true
  | VStr s, VStr t => String.eqb s t
  | VList l1, VList l2 =>
      (fix go (l1 l2 : list value) : bool :=
         match l1, l2 with
         | [], [] => true
         | x :: xs, y :: ys => py_eq x y && go xs ys
         | _, _ => false
         end) l1 l2
  | VDict d1, VDict d2 =>
      Nat.eqb (List.length d1) (List.length d2)
      && (fix go (d1 : list (string * value)) : bool :=
            match d1 with
            | [] => true
            | (k, x) :: rest =>
                match lookup k d2 with
                | Some y => py_eq x y
                | None => false
                end && go rest
            end) d1
  | VBool b, VBool c => Bool.eqb b c
  | VBool b, VNum n => Qeq_bool (if b then 1 else 0) (numQ n)
  | VNum n, VBool c => Qeq_bool (numQ n) (if c then 1 else 0)
  | VNum n, VNum m => Qeq_bool (numQ n) (numQ m)
  | _, _ => false
  end.

(** [v in l] *)
Definition py_in (v : value) (l : list value) : bool :=
  existsb (fun x => py_eq v x) l.

(** [l.index(v)] *)
Fixpoint py_index (v : value) (l : list value) : result Z :=
  match l with
  | [] => Raise ValueError
  | x :: rest => if py_eq v x then Return 0 else i <- py_index v rest ;; Return (i + 1)
  end.

(** [v > n] for an int literal [n] *)
Definition py_gt (v : value) (n : Z) : result bool :=
  match as_number v with
  | Some q => Return (negb (Qle_bool q (inject_Z n)))
  | None => Raise TypeError
  end.

(** [a or b] *)
Definition py_or (a b : value) : value := if truthy a then a else b.

Definition strs (l : list string) : list value := map VStr l.

(** ** Compatibility rule *)

(** Donor type, and the recipient types it can donate to; in dict order. *)
Definition BLOOD_COMPATIBILITY : list (string * list string) :=
  [ ("O-",  ["O-"; "O+"; "A-"; "A+"; "B-"; "B+"; "AB-"; "AB+"]);
    ("O+",  ["O+"; "A+"; "B+"; "AB+"]);
    ("A-",  ["A-"; "A+"; "AB-"; "AB+"]);
    ("A+",  ["A+"; "AB+"]);
    ("B-",  ["B-"; "B+"; "AB-"; "AB+"]);
    ("B+",  ["B+"; "AB+"]);
    ("AB-", ["AB-"; "AB+"]);
    ("AB+", ["AB+"]) ].

Definition get_compatible_donor_types (recipient_blood_type : value) : list string :=
  fold_left
    (fun compatible '(donor_type, can_donate_to) =>
       if py_in recipient_blood_type (strs can_donate_to)
       then compatible ++ [donor_type]
       else compatible)
    BLOOD_COMPATIBILITY [].

(** ** Eligibility screener *)

Definition append_if (donor : dict) (flag label : string) (acc : list string)
  : list string :=
  if truthy (get donor flag) then acc ++ [label] else acc.

Definition check_hard_stops (donor : dict) : list string :=
  let hard_stops := [] in
  let hard_stops := append_if donor "hivStatus" "HIV positive" hard_stops in
  let hard_stops := append_if donor "hepatitisB" "Hepatitis B" hard_stops in
  let hard_stops := append_if donor "hepatitisC" "Hepatitis C" hard_stops in
  let hard_stops := append_if donor "htlv" "HTLV positive" hard_stops in
  let hard_stops := append_if donor "ivDrugUse" "IV drug use history" hard_stops in
  hard_stops.

Definition check_temporary_deferrals (donor : dict) : list string :=
  let warnings := [] in
  let warnings := append_if donor "recentColdFlu" "Recent cold/flu" warnings in
  let warnings := append_if donor "recentTattoo" "Recent tattoo" warnings in
  let warnings := append_if donor "recentSurgery" "Recent surgery" warnings in
  let warnings := append_if donor "pregnant" "Pregnant" warnings in
  let warnings := append_if donor "recentVaccination" "Recent vaccination" warnings in
  let warnings := append_if donor "recentTravel" "Recent travel" warnings in
  warnings.

(** ** Feature encoder *)

Definition blood_types : list string :=
  ["A+"; "A-"; "B+"; "B-"; "AB+"; "AB-"; "O+"; "O-"].

Definition urgency_levels : list string :=
  ["standard"; "medium"; "high"; "critical"].

Definition int (z : Z) : value := VNum (Int z).

(** [1 if c else 0] *)
Definition one_if (c : bool) : value := if c then int 1 else int 0.

(** [blood_types.index(p.get('bloodType', 'O+')) if p.get('bloodType') in blood_types else 0] *)
Definition blood_type_feature (person : dict) : result value :=
  if py_in (get person "bloodType") (strs blood_types)
  then i <- py_index (get_default person "bloodType" (VStr "O+")) (strs blood_types) ;;
       Return (int i)
  else Return (int 0).

(** [1 if p.get('rhVariants', {}).get(variant) else 0] *)
Definition rh_feature (person : dict) (variant : string) : result value :=
  v <- value_get (get_default person "rhVariants" (VDict [])) variant ;;
  Return (one_if (truthy v)).

Definition flag_feature (person : dict) (flag : string) : result value :=
  Return (one_if (truthy (get person flag))).

(** Evaluation of a dict display: the entries are computed in order and the
    first exception aborts the display. *)
Fixpoint eval_entries (entries : list (string * result value)) : result dict :=
  match entries with
  | [] => Return []
  | (k, c) :: rest =>
      v <- c ;;
      d <- eval_entries rest ;;
      Return ((k, v) :: d)
  end.

Definition feature_entries (donor recipient : dict) : list (string * result value) :=
  [ (* Donor features *)
    ("donor_blood_type", blood_type_feature donor);
    ("donor_age", Return (get_default donor "age" (int 30)));
    ("donor_gender", Return (one_if (py_eq (get donor "gender") (VStr "Male"))));
    ("donor_weight", Return (get_default donor "weight" (int 70)));
    ("donor_hemoglobin", Return (get_default donor "hemoglobinLevel" (int 14)));
    ("donor_total_donations", Return (get_default donor "totalDonations" (int 0)));
    ("donor_willing_emergency", flag_feature donor "willingForEmergency");
    ("donor_rh_C", rh_feature donor "C");
    ("donor_rh_c", rh_feature donor "c");
    ("donor_rh_E", rh_feature donor "E");
    ("donor_rh_e", rh_feature donor "e");
    ("donor_kell", flag_feature donor "kell");
    ("donor_duffy", flag_feature donor "duffy");
    ("donor_kidd", flag_feature donor "kidd");
    (* Recipient features *)
    ("recipient_blood_type", blood_type_feature recipient);
    ("recipient_age", Return (get_default recipient "age" (int 30)));
    ("recipient_gender", Return (one_if (py_eq (get recipient "gender") (VStr "Male"))));
    ("recipient_weight", Return (get_default recipient "patientWeight" (int 70)));
    ("recipient_units_needed", Return (get_default recipient "units" (int 1)));
    ("recipient_urgency",
      i <- py_index (get_default recipient "urgency" (VStr "standard"))
                    (strs urgency_levels) ;;
      Return (int i));
    ("recipient_rh_C", rh_feature recipient "C");
    ("recipient_rh_c", rh_feature recipient "c");
    ("recipient_rh_E", rh_feature recipient "E");
    ("recipient_rh_e", rh_feature recipient "e");
    ("recipient_kell", flag_feature recipient "kell");
    ("recipient_duffy", flag_feature recipient "duffy");
    ("recipient_kidd", flag_feature recipient "kidd");
    ("recipient_irradiated", flag_feature recipient "irradiatedBlood");
    ("recipient_cmv_negative", flag_feature recipient "cmvNegative");
    ("recipient_washed_cells", flag_feature recipient "washedCells");
    ("recipient_leukocyte_reduced", flag_feature recipient "leukocyteReduced") ].

(** [list(features.values())] *)
Definition values (d : dict) : list value := map snd d.

Definition prepare_features (donor recipient : dict) : result (list value) :=
  features <- eval_entries (feature_entries donor recipient) ;;
  Return (values features).

(** ** Scorer *)

(** Rule-based scoring: the [for variant in ['C', 'c', 'E', 'e']] loop.  The
    [and] is short-circuit: the donor's mapping is read only when the
    recipient's antigen is present. *)
Fixpoint antigen_loop (donor_rh recipient_rh : value) (variants : list string)
  (score : Z) : result Z :=
  match variants with
  | [] => Return score
  | variant :: rest =>
      rv <- value_get recipient_rh variant ;;
      if truthy rv then
        dv <- value_get donor_rh variant ;;
        antigen_loop donor_rh recipient_rh rest (if truthy dv then score + 3 else score)
      else antigen_loop donor_rh recipient_rh rest score
  end.

(** [if recipient.get(k) and donor.get(k): score += 3] *)
Definition antigen_bonus (donor recipient : dict) (k : string) (score : Z) : Z :=
  if truthy (get recipient k) && truthy (get donor k) then score + 3 else score.

Definition calculate_rule_based_score (donor recipient : dict) : result Z :=
  let score := 50 in
  let score :=
    if py_eq (get donor "bloodType") (get recipient "bloodType")
    then score + 20 else score in
  let donor_rh := get_default donor "rhVariants" (VDict []) in
  let recipient_rh := get_default recipient "rhVariants" (VDict []) in
  score <- antigen_loop donor_rh recipient_rh ["C"; "c"; "E"; "e"] score ;;
  let score := antigen_bonus donor recipient "kell" score in
  let score := antigen_bonus donor recipient "duffy" score in
  let score := antigen_bonus donor recipient "kidd" score in
  experienced <- py_gt (get_default donor "totalDonations" (int 0)) 5 ;;
  let score := if experienced then score + 5 else score in
  let score :=
    if py_eq (get recipient "urgency") (VStr "critical")
       && truthy (get donor "willingForEmergency")
    then score + 10 else score in
  Return (Z.min 100 score).

(** The unpickled model object, as far as the handlers use it:
    [hasattr(model, 'predict_proba')], [model.predict_proba(features)[0]]
    and [model.predict(features)[0]].  A missing method, a shape mismatch or
    any other failure inside the model is a [Raise]. *)
Record Model := {
  has_predict_proba : bool;
  predict_proba : list value -> result (list Q);
  model_predict : list value -> result Q
}.

(** [xs[i]] *)
Definition item (xs : list Q) (i : nat) : result Q :=
  match nth_error xs i with
  | Some x => Return x
  | None => Raise IndexError
  end.

(** The body of the inner [try] of both handlers (lines 163-168 and
    257-264). *)
Definition model_score (model : Model) (features : list value) : result number :=
  if has_predict_proba model then
    proba <- predict_proba model features ;;
    if (1 <? List.length proba)%nat
    then p <- item proba 1 ;; Return (Float (p * 100))
    else p <- item proba 0 ;; Return (Float (p * 100))
  else
    prediction <- model_predict model features ;;
    Return (if Qle_bool prediction 1 then Float (prediction * 100)
            else Float prediction).

Definition rule_based (donor recipient : dict) : result number :=
  score <- calculate_rule_based_score donor recipient ;;
  Return (Int score).

(** Builtins [max(a, b)] and [min(a, b)]: the first argument is kept unless
    the second is strictly beyond it. *)
Definition num_lt (a b : number) : bool := negb (Qle_bool (numQ b) (numQ a)).
Definition num_le (a b : number) : bool := Qle_bool (numQ a) (numQ b).
Definition num_eq (a b : number) : bool := Qeq_bool (numQ a) (numQ b).

Definition py_max (a b : number) : number := if num_lt a b then b else a.
Definition py_min (a b : number) : number := if num_lt b a then b else a.

(** Round half to even. *)
Definition round_half_even (t : Q) : Z :=
  let f := Qfloor t in
  match Qcompare (t - inject_Z f) (1 # 2) with
  | Lt => f
  | Gt => f + 1
  | Eq => if Z.even f then f else f + 1
  end.

(** [round(score, 1)]: an int is returned unchanged, a float is rounded to
    one decimal. *)
Definition round1 (score : number) : number :=
  match score with
  | Int z => Int z
  | Float q => Float (Qmake (round_half_even (q * 10)) 10)
  end.

(** ** Single-pair scoring: the [/predict] handler *)

(** The JSON bodies [predict] returns with status 200. *)
Inductive predict_json :=
| Rejected (compatible : bool) (score : Z) (reason : string)
| Scored (compatible : bool) (score : number) (warnings : list string)
    (model_used : bool).

(** What a handler hands back to the transport: a 200 body, or the 500
    error body built by its outermost [except]. *)
Inductive response (A : Type) :=
| Ok200 (body : A)
| Error500 (e : exn).
Arguments Ok200 {A} body.
Arguments Error500 {A} e.

Definition handle {A} (c : result A) : response A :=
  match c with
  | Return body => Ok200 body
  | Raise e => Error500 e
  end.

Definition is_loaded (model : option Model) : bool :=
  match model with Some _ => true | None => false end.

Definition predict_body (model : option Model) (donor recipient : dict)
  : result predict_json :=
  (* Check blood type compatibility first *)
  let compatible_types :=
    get_compatible_donor_types (get_default recipient "bloodType" (VStr "")) in
  if negb (py_in (get donor "bloodType") (strs compatible_types)) then
    Return (Rejected false 0 "Blood type incompatible")
  else
  (* Check hard stops *)
  let hard_stops := check_hard_stops donor in
  if negb (Nat.eqb (List.length hard_stops) 0) then
    Return (Rejected false 0
              ("Permanent deferral: " ++ String.concat ", " hard_stops)%string)
  else
  score <-
    match model with
    | Some m =>
        features <- prepare_features donor recipient ;;
        try_except (model_score m features)
          (fun _ => rule_based donor recipient)
    | None => rule_based donor recipient
    end ;;
  let warnings := check_temporary_deferrals donor in
  Return (Scored true (py_min (Int 100) (py_max (Int 0) score)) warnings
            (is_loaded model)).

Definition predict (model : option Model) (donor recipient : dict)
  : response predict_json :=
  handle (predict_body model donor recipient).

(** ** Batch ranking: the [/match] handler *)

Record match_result := {
  donorId : value;
  donorName : value;
  donorBloodType : value;
  donorLocation : value;
  donorContact : value;
  donorAvailability : value;
  compatibilityScore : number;
  priority : string;
  isEligible : bool;
  warnings : list string;
  matchReasons : list string
}.

Record match_response := {
  requestId : value;
  recipientName : value;
  bloodTypeNeeded : value;
  urgency : value;
  matches : list match_result;
  totalMatchesFound : nat;
  modelUsed : bool;
  timestamp : string
}.

(** Lines 253-273: the learned path inside two nested [try] blocks, the
    outer one falling back to the rule-based score as well. *)
Definition donor_score (model : option Model) (donor recipient : dict)
  : result number :=
  try_except
    (match model with
     | Some m =>
         features <- prepare_features donor recipient ;;
         try_except (model_score m features)
           (fun _ => rule_based donor recipient)
     | None => rule_based donor recipient
     end)
    (fun _ => rule_based donor recipient).

Definition priority_of (score : number) : string :=
  if num_le (Int 80) score then "high"
  else if num_le (Int 50) score then "medium"
  else "low".

(** The text an f-string inserts for the donor's blood type.  The value has
    passed the compatibility filter at that point, so it is a string. *)
Definition blood_text (v : value) : string :=
  match v with
  | VStr s => s
  | _ => ""
  end.

Definition make_match (donor : dict) (score : number) : match_result :=
  let warnings := check_temporary_deferrals donor in
  {| donorId := py_or (get donor "id") (get donor "donorId");
     donorName := get_default donor "donorName" (VStr "Anonymous");
     donorBloodType := get donor "bloodType";
     donorLocation := get_default donor "location" (VStr "Unknown");
     donorContact := get_default donor "contactNumber" (VStr "N/A");
     donorAvailability := get_default donor "availability" (VStr "N/A");
     compatibilityScore := round1 score;
     priority := priority_of score;
     isEligible := Nat.eqb (List.length warnings) 0;
     warnings := warnings;
     matchReasons :=
       [("Blood type " ++ blood_text (get donor "bloodType") ++ " compatible")%string]
  |}.

(** The [for i, donor in enumerate(donors)] loop, with the list [matches]
    it appends to. *)
Fixpoint match_loop (model : option Model) (recipient : dict)
  (compatible_types : list string) (donors : list dict)
  (matches : list match_result) : result (list match_result) :=
  match donors with
  | [] => Return matches
  | donor :: rest =>
      let donor_blood := get donor "bloodType" in
      (* Skip incompatible blood types *)
      if negb (py_in donor_blood (strs compatible_types)) then
        match_loop model recipient compatible_types rest matches
      else
      (* Skip hard stops *)
      let hard_stops := check_hard_stops donor in
      if negb (Nat.eqb (List.length hard_stops) 0) then
        match_loop model recipient compatible_types rest matches
      else
      score <- donor_score model donor recipient ;;
      match_loop model recipient compatible_types rest
        (matches ++ [make_match donor score])
  end.

(** [list.sort(key=..., reverse=...)].  The sort compares keys with [<]
    only and is stable; with [reverse=True] the list is reversed before and
    after an ascending stable sort, which is how equal keys keep their
    original order in a descending sort. *)
Section Sort.
Context {A : Type} (key : A -> number).

Fixpoint insert_sorted (x : A) (l : list A) : list A :=
  match l with
  | [] => [x]
  | y :: rest =>
      if num_lt (key y) (key x) then y :: insert_sorted x rest
      else x :: y :: rest
  end.

Fixpoint stable_sort (l : list A) : list A :=
  match l with
  | [] => []
  | x :: rest => insert_sorted x (stable_sort rest)
  end.

Definition py_sort (reverse : bool) (l : list A) : list A :=
  if reverse then rev (stable_sort (rev l)) else stable_sort l.

(** Order of two elements by key, and the elements of one key. *)
Definition ascending (a b : A) : Prop := num_le (key a) (key b) = true.
Definition descending (a b : A) : Prop := num_le (key b) (key a) = true.
Definition same_key (k : number) (a : A) : bool := num_eq (key a) k.
End Sort.

(** [now] is [str(np.datetime64('now'))], the reading of the clock at the
    call. *)
Definition match_donors_body (model : option Model) (now : string)
  (recipient : dict) (donors : list dict) : result match_response :=
  let compatible_types :=
    get_compatible_donor_types (get_default recipient "bloodType" (VStr "")) in
  matches <- match_loop model recipient compatible_types donors [] ;;
  (* Sort by score descending *)
  let matches := py_sort compatibilityScore true matches in
  Return {| requestId := get recipient "id";
            recipientName := get recipient "userName";
            bloodTypeNeeded := get recipient "bloodType";
            urgency := get recipient "urgency";
            matches := matches;
            totalMatchesFound := List.length matches;
            modelUsed := is_loaded model;
            timestamp := now |}.

Definition match_donors (model : option Model) (now : string)
  (recipient : dict) (donors : list dict) : response match_response :=
  handle (match_donors_body model now recipient donors).

(** ** Reference definitions from the specification *)

(** The eight blood types, by ABO group and Rh factor. *)
Inductive abo := GroupO | GroupA | GroupB | GroupAB.
Inductive rhesus := RhNeg | RhPos.
Record BloodType := BT { group : abo; rh : rhesus }.

Definition abo_name (g : abo) : string :=
  match g with
  | GroupO => "O" | GroupA => "A" | GroupB => "B" | GroupAB => "AB"
  end.

Definition rh_sign (r : rhesus) : string :=
  match r with RhNeg => "-" | RhPos => "+" end.

Definition name (t : BloodType) : string :=
  (abo_name (group t) ++ rh_sign (rh t))%string.

Definition all_blood_types : list BloodType :=
  [ BT GroupO RhNeg; BT GroupO RhPos; BT GroupA RhNeg; BT GroupA RhPos;
    BT GroupB RhNeg; BT GroupB RhPos; BT GroupAB RhNeg; BT GroupAB RhPos ].

Definition has_A (g : abo) : bool :=
  match g with GroupA | GroupAB => true | _ => false end.
Definition has_B (g : abo) : bool :=
  match g with GroupB | GroupAB => true | _ => false end.
Definition has_D (r : rhesus) : bool :=
  match r with RhPos => true | RhNeg => false end.

(** Classical ABO/Rh rule: the recipient must carry every antigen (A, B,
    RhD) that the donor's red cells carry. *)
Definition can_receive (recipient donor : BloodType) : bool :=
  implb (has_A (group donor)) (has_A (group recipient))
  && implb (has_B (group donor)) (has_B (group recipient))
  && implb (has_D (rh donor)) (has_D (rh recipient)).

(** The rule-based score as the specification words it. *)
Definition present (d : dict) (k : string) : bool := truthy (get d k).

Definition rh_present (d : dict) (antigen : string) : bool :=
  match get_default d "rhVariants" (VDict []) with
  | VDict m => truthy (get m antigen)
  | _ => false
  end.

Definition is_text (v : value) (s : string) : bool :=
  match v with
  | VStr t => String.eqb t s
  | _ => false
  end.

Definition same_blood_type (donor recipient : dict) : bool :=
  match get donor "bloodType" with
  | VStr s => is_text (get recipient "bloodType") s
  | _ => false
  end.

Definition more_than_5_donations (donor : dict) : bool :=
  match as_number (get_default donor "totalDonations" (int 0)) with
  | Some q => negb (Qle_bool q 5)
  | None => false
  end.

Definition bonus (c : bool) (points : Z) : Z := if c then points else 0.

Definition extra_bonuses (donor recipient : dict) : Z :=
  3 * Z.of_nat (List.length
        (filter (fun a => rh_present donor a && rh_present recipient a)
                ["C"; "c"; "E"; "e"]))
  + bonus (present donor "kell" && present recipient "kell") 3
  + bonus (present donor "duffy" && present recipient "duffy") 3
  + bonus (present donor "kidd" && present recipient "kidd") 3
  + bonus (more_than_5_donations donor) 5
  + bonus (is_text (get recipient "urgency") "critical"
           && present donor "willingForEmergency") 10.

Definition clamp (lo hi x : Z) : Z := Z.max lo (Z.min hi x).

Definition reference_score (donor recipient : dict) : Z :=
  clamp 0 100
    (50 + bonus (same_blood_type donor recipient) 20
        + extra_bonuses donor recipient).

(** Typing of the fields the rule-based score reads, as in the data model:
    [rhVariants] absent or a mapping, [totalDonations] absent or a number. *)
Definition is_mapping (v : value) : bool :=
  match v with VDict _ => true | _ => false end.

Definition is_numeric (v : value) : bool :=
  match as_number v with Some _ => true | None => false end.

Definition rule_fields_typed (donor recipient : dict) : bool :=
  is_mapping (get_default donor "rhVariants" (VDict []))
  && is_mapping (get_default recipient "rhVariants" (VDict []))
  && is_numeric (get_default donor "totalDonations" (int 0)).

(** ** Vocabulary of the statements *)

(** The donor's blood type is among the types the recipient can receive. *)
Definition blood_compatible (donor recipient : dict) : bool :=
  py_in (get donor "bloodType")
    (strs (get_compatible_donor_types
             (get_default recipient "bloodType" (VStr "")))).

(** The permanent-deferral flags with the reason each one contributes. *)
Definition hard_stop_flags : list (string * string) :=
  [ ("hivStatus", "HIV positive");
    ("hepatitisB", "Hepatitis B");
    ("hepatitisC", "Hepatitis C");
    ("htlv", "HTLV positive");
    ("ivDrugUse", "IV drug use history") ].

Definition has_hard_stop (donor : dict) : bool :=
  existsb (fun '(flag, _) => truthy (get donor flag)) hard_stop_flags.

(** [v] names one of the eight blood types. *)
Definition known_blood_type (v : value) : bool :=
  existsb (is_text v) (map name all_blood_types).

(** [label] occurs in [reason]. *)
Definition mentions (reason label : string) : Prop :=
  exists before after, reason = (before ++ label ++ after)%string.

(** The matches in input order, before the sort: what each donor
    contributes to the result list. *)
Definition candidate (model : option Model) (recipient donor : dict)
  : list match_result :=
  if blood_compatible donor recipient && negb (has_hard_stop donor) then
    match donor_score model donor recipient with
    | Return score => [make_match donor score]
    | Raise _ => []
    end
  else [].

Definition candidates (model : option Model) (recipient : dict)
  (donors : list dict) : list match_result :=
  flat_map (candidate model recipient) donors.

Definition same_score (s : number) (m : match_result) : bool :=
  same_key compatibilityScore s m.

Definition non_increasing (l : list match_result) : Prop :=
  StronglySorted (descending compatibilityScore) l.

Definition in_range (score : number) : bool :=
  num_le (Int 0) score && num_le score (Int 100).

(** A response with the clock reading blanked. *)
Definition without_timestamp (r : response match_response)
  : response match_response :=
  match r with
  | Ok200 b =>
      Ok200 {| requestId := requestId b;
               recipientName := recipientName b;
               bloodTypeNeeded := bloodTypeNeeded b;
               urgency := urgency b;
               matches := matches b;
               totalMatchesFound := totalMatchesFound b;
               modelUsed := modelUsed b;
               timestamp := "" |}
  | Error500 e => Error500 e
  end.

(** Pass-through fields of the encoder hold numbers (or are absent), the
    urgency is one of the four levels (or absent), [rhVariants] is a
    mapping (or absent). *)
Definition numeric_field (d : dict) (k : string) : bool :=
  match lookup k d with
  | Some v => is_numeric v
  | None => true
  end.

Definition encoder_fields_typed (donor recipient : dict) : bool :=
  is_mapping (get_default donor "rhVariants" (VDict []))
  && is_mapping (get_default recipient "rhVariants" (VDict []))
  && py_in (get_default recipient "urgency" (VStr "standard")) (strs urgency_levels)
  && forallb (numeric_field donor) ["age"; "weight"; "hemoglobinLevel"; "totalDonations"]
  && forallb (numeric_field recipient) ["age"; "patientWeight"; "units"].

(** The donor-derived and the recipient-derived part of a feature vector. *)
Definition donor_part (v : list value) : list value := firstn 14 v.
Definition recipient_part (v : list value) : list value := skipn 14 v.

(** Ordinal of a blood type in the encoder's ordering; 0 when the field is
    missing or does not name a blood type. *)
Fixpoint position (s : string) (l : list string) : option Z :=
  match l with
  | [] => None
  | x :: rest =>
      if String.eqb s x then Some 0
      else option_map Z.succ (position s rest)
  end.

Definition blood_ordinal (field : option value) : Z :=
  match field with
  | Some (VStr s) =>
      match position s blood_types with
      | Some i => i
      | None => 0
      end
  | _ => 0
  end.

(** ** Test records *)

Definition donor_of (blood : string) : dict := [("bloodType", VStr blood)].

Definition noon : string := "2024-01-01T12:00:00".
Definition midnight : string := "2024-01-02T00:00:00".

(** A regressor: no [predict_proba], and a prediction on a 0-100 scale
    that overshoots. *)
Definition overshooting_regressor : Model :=
  {| has_predict_proba := false;
     predict_proba := fun _ => Raise AttributeError;
     model_predict := fun _ => Return (250 # 1) |}.

(** A classifier whose positive-class probability is 0.9. *)
Definition classifier : Model :=
  {| has_predict_proba := true;
     predict_proba := fun _ => Return [1 # 10; 9 # 10];
     model_predict := fun _ => Return 1%Q |}.

(** A model whose every call fails. *)
Definition broken_model : Model :=
  {| has_predict_proba := true;
     predict_proba := fun _ => Raise (ModelError "feature shape mismatch");
     model_predict := fun _ => Raise (ModelError "feature shape mismatch") |}.

Definition urgent_request : dict :=
  [("bloodType", VStr "O+"); ("urgency", VStr "urgent")].

Definition urgent_request_critical : dict :=
  [("bloodType", VStr "O+"); ("urgency", VStr "critical")].

Definition hiv_donor : dict :=
  [("bloodType", VStr "O-"); ("hivStatus", VBool true)].

Definition tattoo_donor : dict :=
  [("bloodType", VStr "O-"); ("recentTattoo", VBool true)].

Definition malformed_donor : dict :=
  [("bloodType", VStr "O+"); ("totalDonations", VStr "many")].

Definition no_blood_type_donor : dict := [("donorName", VStr "Sam")].

Definition mixed_donors : list dict :=
  [donor_of "O-"; donor_of "AB+"; donor_of "B+"; hiv_donor; donor_of "AB+"].

(** ** Readiness: the [/health] handler *)

Definition MODEL_ID : string := "bhyulljz/MLModelTwo".

Record health_json := {
  status : string;
  model_loaded : bool;
  model_id : string
}.

Definition health (model : option Model) : health_json :=
  {| status := "healthy";
     model_loaded := is_loaded model;
     model_id := MODEL_ID |}.

(** ** Vocabulary of the further properties *)

(** The temporary-deferral flags with the warning each one contributes. *)
Definition temporary_flags : list (string * string) :=
  [ ("recentColdFlu", "Recent cold/flu");
    ("recentTattoo", "Recent tattoo");
    ("recentSurgery", "Recent surgery");
    ("pregnant", "Pregnant");
    ("recentVaccination", "Recent vaccination");
    ("recentTravel", "Recent travel") ].

(** The labels of the flags of a checklist that are set on a record, in
    checklist order. *)
Definition set_labels (checklist : list (string * string)) (d : dict)
  : list string :=
  map snd (filter (fun entry => truthy (get d (fst entry))) checklist).

(** The donor survives both filters of the handlers. *)
Definition passes_filters (donor recipient : dict) : bool :=
  blood_compatible donor recipient && negb (has_hard_stop donor).

(** The antigen loop of the rule-based score can read the [rhVariants]
    fields: the recipient's is a mapping (or absent), and the donor's is
    too unless the recipient asks for none of C, c, E, e. *)
Definition rh_readable (donor recipient : dict) : bool :=
  match get_default recipient "rhVariants" (VDict []) with
  | VDict mr =>
      negb (existsb (fun a => truthy (get mr a)) ["C"; "c"; "E"; "e"])
      || is_mapping (get_default donor "rhVariants" (VDict []))
  | _ => false
  end.

Definition donations_numeric (donor : dict) : bool :=
  is_numeric (get_default donor "totalDonations" (int 0)).

(** The fields the rule-based score reads. *)
Definition rule_donor_keys : list string :=
  ["bloodType"; "rhVariants"; "kell"; "duffy"; "kidd"; "totalDonations";
   "willingForEmergency"].

Definition rule_recipient_keys : list string :=
  ["bloodType"; "rhVariants"; "kell"; "duffy"; "kidd"; "urgency"].

Definition agree_on (keys : list string) (d d' : dict) : Prop :=
  forall k, In k keys -> lookup k d = lookup k d'.





(** A response of the ranking with the [modelUsed] flag set. *)
Definition with_model_used (r : response match_response)
  : response match_response :=
  match r with
  | Ok200 b =>
      Ok200 {| requestId := requestId b;
               recipientName := recipientName b;
               bloodTypeNeeded := bloodTypeNeeded b;
               urgency := urgency b;
               matches := matches b;
               totalMatchesFound := totalMatchesFound b;
               modelUsed := true;
               timestamp := timestamp b |}
  | Error500 e => Error500 e
  end.

(** A model none of whose calls succeeds. *)
Definition always_fails (m : Model) : Prop :=
  forall features, exists e, model_score m features = Raise e.

(** The score lies in 0..100. *)
Definition score_in_range (score : number) : Prop :=
  (0 <= numQ score)%Q /\ (numQ score <= 100)%Q.

(** Every probability a classifier returns lies in 0..1. *)
Definition probabilities_valid (m : Model) : Prop :=
  has_predict_proba m = true
  /\ forall features proba,
       predict_proba m features = Return proba ->
       Forall (fun p => (0 <= p)%Q /\ (p <= 1)%Q) proba.

(** ** Proof automation *)

(** Tries each of the eight blood types as an existential witness. *)
Ltac some_blood_type tac :=
  first [ exists (BT GroupO RhNeg); tac | exists (BT GroupO RhPos); tac
        | exists (BT GroupA RhNeg); tac | exists (BT GroupA RhPos); tac
        | exists (BT GroupB RhNeg); tac | exists (BT GroupB RhPos); tac
        | exists (BT GroupAB RhNeg); tac | exists (BT GroupAB RhPos); tac ].

(** Splits a disjunction into its cases. *)
Ltac split_cases H :=
  repeat match type of H with
         | _ \/ _ => destruct H as [H | H]
         end.

(** * Properties *)

(** ** Scenarios of the specification, run on the embedding *)

Example rule_based_exact_match :
  calculate_rule_based_score (donor_of "A+") (donor_of "A+") = Return 70.
Proof. reflexivity. Qed.

Example universal_recipient :
  get_compatible_donor_types (VStr "AB+")
  = ["O-"; "O+"; "A-"; "A+"; "B-"; "B+"; "AB-"; "AB+"].
Proof. reflexivity. Qed.

Example ranking_scenario :
  match match_donors None noon (donor_of "AB+") [donor_of "O-"; donor_of "AB+"] with
  | Ok200 r => map (fun m => (donorBloodType m, compatibilityScore m)) (matches r)
  | Error500 _ => []
  end
  = [(VStr "AB+", Int 70); (VStr "O-", Int 50)].
Proof. reflexivity. Qed.

Example tattoo_scenario :
  match match_donors None noon (donor_of "AB+") [tattoo_donor] with
  | Ok200 r => map (fun m => (isEligible m, warnings m)) (matches r)
  | Error500 _ => []
  end
  = [(false, ["Recent tattoo"])].
Proof. reflexivity. Qed.

(** ** Comparison with string literals *)

Lemma py_eq_text (v : value) (s : string) : py_eq v (VStr s) = is_text v s.
Proof. destruct v as [ | b | n | t | l | d]; try reflexivity; destruct b; reflexivity. Qed.

Lemma is_text_true (v : value) (s : string) :
  is_text v s = true <-> v = VStr s.
Proof.
  destruct v; simpl; split; intro H; try discriminate.
  - apply String.eqb_eq in H. now subst.
  - injection H as ->. apply String.eqb_refl.
Qed.

Lemma py_in_strs (v : value) (l : list string) :
  py_in v (strs l) = true <-> exists s, v = VStr s /\ In s l.
Proof.
  unfold py_in, strs. rewrite existsb_exists. split.
  - intros [x [Hx Heq]]. apply in_map_iff in Hx as [s [<- Hs]].
    rewrite py_eq_text in Heq. apply is_text_true in Heq. eauto.
  - intros [s [-> Hs]]. exists (VStr s). split.
    + now apply in_map.
    + simpl. apply String.eqb_refl.
Qed.

Lemma py_in_none (l : list string) : py_in VNone (strs l) = false.
Proof.
  destruct (py_in VNone (strs l)) eqn:E; [ | reflexivity].
  apply py_in_strs in E as [s [H _]]. discriminate.
Qed.

(** ** Compatibility rule *)

Lemma compatible_fold (v : value) (table : list (string * list string))
  (acc : list string) (D : string) :
  In D (fold_left
          (fun compatible '(donor_type, can_donate_to) =>
             if py_in v (strs can_donate_to)
             then compatible ++ [donor_type] else compatible)
          table acc)
  <-> In D acc
      \/ exists can, In (D, can) table /\ py_in v (strs can) = true.
Proof.
  revert acc. induction table as [ | [d can] table IH]; intro acc; simpl.
  - split; [auto | intros [H | [can [[] _]]]; exact H].
  - rewrite IH. destruct (py_in v (strs can)) eqn:E.
    + rewrite in_app_iff. simpl. split.
      * intros [[H | [<- | []]] | [c [Hc Hv]]]; eauto 6.
      * intros [H | [c [[Hc | Hc] Hv]]]; eauto 6.
        injection Hc as <- <-. auto.
    + split.
      * intros [H | [c [Hc Hv]]]; eauto 6.
      * intros [H | [c [[Hc | Hc] Hv]]]; eauto 6.
        injection Hc as <- <-. congruence.
Qed.

Lemma compatible_iff_table (v : value) (D : string) :
  In D (get_compatible_donor_types v)
  <-> exists can, In (D, can) BLOOD_COMPATIBILITY /\ py_in v (strs can) = true.
Proof.
  unfold get_compatible_donor_types. rewrite compatible_fold. simpl In at 1.
  tauto.
Qed.

Lemma blood_type_cases (t : BloodType) : In t all_blood_types.
Proof. destruct t as [[] []]; simpl; tauto. Qed.

(** The donor types returned for [v] are exactly those the classical rule
    allows, and there are none unless [v] names one of the eight types. *)
Lemma compatible_iff_classical (v : value) (D : string) :
  In D (get_compatible_donor_types v)
  <-> exists R Dt, v = VStr (name R) /\ D = name Dt /\ can_receive R Dt = true.
Proof.
  split.
  - intro H. apply compatible_iff_table in H as [can [Hin Hv]].
    apply py_in_strs in Hv as [s [-> Hs]].
    unfold BLOOD_COMPATIBILITY in Hin. simpl In in Hin.
    split_cases Hin; try contradiction;
      injection Hin as <- <-; simpl In in Hs;
      split_cases Hs; try contradiction; subst s;
      some_blood_type ltac:(some_blood_type ltac:(repeat split; reflexivity)).
  - intros [[[] []] [[[] []] [-> [-> Hc]]]]; try discriminate Hc;
      vm_compute; tauto.
Qed.

(** C2.  For each of the eight recipient types, [get_compatible_donor_types]
    holds a donor type exactly when the classical ABO/Rh rule lets the
    recipient receive from it; O- is compatible with every recipient and AB+
    receives from all eight types; for any other recipient value, an empty
    or missing one included, the result is empty. *)
Theorem compatible_donor_types_classical :
  (forall R D : BloodType,
      In (name D) (get_compatible_donor_types (VStr (name R)))
      <-> can_receive R D = true)
  /\ (forall (v : value) (s : string),
        In s (get_compatible_donor_types v) ->
        exists R D, v = VStr (name R) /\ s = name D)
  /\ (forall R : BloodType, In "O-" (get_compatible_donor_types (VStr (name R))))
  /\ get_compatible_donor_types (VStr "AB+") = map name all_blood_types
  /\ (forall v : value,
        known_blood_type v = false -> get_compatible_donor_types v = [])
  /\ (forall recipient : dict,
        lookup "bloodType" recipient = None ->
        get_compatible_donor_types (get_default recipient "bloodType" (VStr "")) = []).
Proof.
  assert (Hunknown : forall v : value,
             known_blood_type v = false -> get_compatible_donor_types v = []).
  { intros v Hv.
    destruct (get_compatible_donor_types v) as [ | s l] eqn:E; [reflexivity | ].
    assert (Hs : In s (get_compatible_donor_types v)) by (rewrite E; now left).
    apply compatible_iff_classical in Hs as [R [D [-> _]]].
    destruct R as [[] []]; discriminate Hv. }
  repeat split.
  - intro H. apply compatible_iff_classical in H as [R' [D' [HR [HD Hc]]]].
    destruct R as [[] []], R' as [[] []]; try discriminate HR;
      destruct D as [[] []], D' as [[] []]; try discriminate HD; exact Hc.
  - intro H. apply compatible_iff_classical. eauto.
  - intros v s H. apply compatible_iff_classical in H as [R [D [-> [-> _]]]]. eauto.
  - intro R. apply compatible_iff_classical.
    exists R, (BT GroupO RhNeg). destruct R as [[] []]; repeat split.
  - exact Hunknown.
  - intros recipient H. unfold get_default. rewrite H. now apply Hunknown.
Qed.

Lemma compatible_donor_types_witness :
  get_compatible_donor_types (VStr "") = []
  /\ get_compatible_donor_types (get_default [] "bloodType" (VStr "")) = [].
Proof.
  destruct compatible_donor_types_classical as [_ [_ [_ [_ [Hunknown Hmissing]]]]].
  split.
  - apply Hunknown. reflexivity.
  - apply Hmissing. reflexivity.
Defined.

(** ** Strings *)

Lemma append_nil_r (s : string) : (s ++ "")%string = s.
Proof. induction s as [ | c s IH]; simpl; [reflexivity | now rewrite IH]. Qed.

Lemma append_assoc (s t u : string) :
  ((s ++ t) ++ u)%string = (s ++ t ++ u)%string.
Proof. induction s as [ | c s IH]; simpl; [reflexivity | now rewrite IH]. Qed.

Lemma mentions_refl (s : string) : mentions s s.
Proof. exists "", "". simpl. now rewrite append_nil_r. Qed.

Lemma mentions_prefix (p s label : string) :
  mentions s label -> mentions (p ++ s) label.
Proof.
  intros [b [a ->]]. exists (p ++ b)%string, a. now rewrite append_assoc.
Qed.

Lemma mentions_suffix (s q label : string) :
  mentions s label -> mentions (s ++ q) label.
Proof.
  intros [b [a ->]]. exists b, (a ++ q)%string. now rewrite !append_assoc.
Qed.

Lemma mentions_concat (sep label : string) (l : list string) :
  In label l -> mentions (String.concat sep l) label.
Proof.
  induction l as [ | x l IH]; intro H; [destruct H | ].
  destruct l as [ | y l].
  - destruct H as [-> | []]. apply mentions_refl.
  - change (String.concat sep (x :: y :: l))
      with (x ++ sep ++ String.concat sep (y :: l))%string.
    destruct H as [-> | H].
    + apply mentions_suffix, mentions_refl.
    + now apply mentions_prefix, mentions_prefix, IH.
Qed.

(** ** Eligibility screener *)

Lemma append_if_in (d : dict) (flag label x : string) (acc : list string) :
  In x (append_if d flag label acc)
  <-> In x acc \/ (truthy (get d flag) = true /\ x = label).
Proof.
  unfold append_if. destruct (truthy (get d flag)).
  - rewrite in_app_iff. simpl. intuition.
  - intuition discriminate.
Qed.

Lemma check_hard_stops_in (d : dict) (label : string) :
  In label (check_hard_stops d)
  <-> exists flag, In (flag, label) hard_stop_flags /\ truthy (get d flag) = true.
Proof.
  unfold check_hard_stops. rewrite !append_if_in. split.
  - unfold hard_stop_flags.
    intros [[[[[[] | [H ->]] | [H ->]] | [H ->]] | [H ->]] | [H ->]];
      eexists; (split; [ | exact H]); simpl; tauto.
  - intros [flag [Hin H]]. unfold hard_stop_flags in Hin. simpl In in Hin.
    split_cases Hin; try contradiction; injection Hin as <- <-; tauto.
Qed.

Lemma has_hard_stop_length (d : dict) :
  negb (Nat.eqb (List.length (check_hard_stops d)) 0) = has_hard_stop d.
Proof.
  unfold has_hard_stop, check_hard_stops, append_if, hard_stop_flags.
  cbn [existsb].
  destruct (truthy (get d "hivStatus")), (truthy (get d "hepatitisB")),
    (truthy (get d "hepatitisC")), (truthy (get d "htlv")),
    (truthy (get d "ivDrugUse")); reflexivity.
Qed.

(** ** The ranking loop *)

Lemma match_loop_skip (model : option Model) (recipient : dict)
  (types : list string) (donor : dict) (rest : list dict)
  (acc : list match_result) :
  py_in (get donor "bloodType") (strs types) && negb (has_hard_stop donor) = false ->
  match_loop model recipient types (donor :: rest) acc
  = match_loop model recipient types rest acc.
Proof.
  intro H. cbn [match_loop]. rewrite has_hard_stop_length.
  destruct (py_in (get donor "bloodType") (strs types)); [ | reflexivity].
  destruct (has_hard_stop donor); [reflexivity | discriminate H].
Qed.

Lemma match_loop_keep (model : option Model) (recipient : dict)
  (types : list string) (donor : dict) (rest : list dict)
  (acc : list match_result) :
  py_in (get donor "bloodType") (strs types) && negb (has_hard_stop donor) = true ->
  match_loop model recipient types (donor :: rest) acc
  = (score <- donor_score model donor recipient ;;
     match_loop model recipient types rest (acc ++ [make_match donor score])).
Proof.
  intro H. cbn [match_loop]. rewrite has_hard_stop_length.
  apply andb_true_iff in H as [-> H2].
  destruct (has_hard_stop donor); [discriminate H2 | reflexivity].
Qed.

(** A donor the filters reject leaves no trace in the loop's result. *)
Lemma match_loop_remove (model : option Model) (recipient : dict)
  (types : list string) (donor : dict) (before after : list dict)
  (acc : list match_result) :
  py_in (get donor "bloodType") (strs types) && negb (has_hard_stop donor) = false ->
  match_loop model recipient types (before ++ donor :: after) acc
  = match_loop model recipient types (before ++ after) acc.
Proof.
  intro H. revert acc. induction before as [ | d before IH]; intro acc.
  - now apply match_loop_skip.
  - rewrite <- !app_comm_cons.
    destruct (py_in (get d "bloodType") (strs types) && negb (has_hard_stop d)) eqn:E.
    + rewrite !match_loop_keep by exact E.
      destruct (donor_score model d recipient); simpl; [apply IH | reflexivity].
    + rewrite !match_loop_skip by exact E. apply IH.
Qed.

Lemma match_donors_remove (model : option Model) (now : string)
  (recipient donor : dict) (before after : list dict) :
  blood_compatible donor recipient && negb (has_hard_stop donor) = false ->
  match_donors model now recipient (before ++ donor :: after)
  = match_donors model now recipient (before ++ after).
Proof.
  intro H. unfold match_donors, match_donors_body.
  now rewrite match_loop_remove.
Qed.

(** ** Hard stops *)

(** C1.  A donor with a permanent-deferral flag set leaves no trace in the
    ranking, whatever the blood type: the response is the one obtained
    without that donor, and the donor contributes no match.  When the blood
    type is compatible, [predict] answers compatible=false, score=0, with a
    reason that mentions the label of every flag that is set. *)
Theorem hard_stop_donor_rejected (model : option Model) (now : string)
  (recipient donor : dict) (before after : list dict) :
  has_hard_stop donor = true ->
  match_donors model now recipient (before ++ donor :: after)
  = match_donors model now recipient (before ++ after)
  /\ candidate model recipient donor = []
  /\ (blood_compatible donor recipient = true ->
      exists reason,
        predict model donor recipient = Ok200 (Rejected false 0 reason)
        /\ forall flag label,
            In (flag, label) hard_stop_flags ->
            truthy (get donor flag) = true ->
            mentions reason label).
Proof.
  intro Hstop. repeat split.
  - apply match_donors_remove. rewrite Hstop. apply andb_false_r.
  - unfold candidate. rewrite Hstop. now rewrite andb_false_r.
  - intro Hcompat. eexists. split.
    + unfold predict, predict_body. fold (blood_compatible donor recipient).
      rewrite Hcompat, has_hard_stop_length, Hstop. reflexivity.
    + intros flag label Hin Hflag.
      apply mentions_prefix, mentions_concat, check_hard_stops_in. eauto.
Qed.

Lemma hard_stop_donor_rejected_witness :
  match_donors None noon (donor_of "AB+") ([donor_of "O-"] ++ hiv_donor :: [donor_of "A+"])
  = match_donors None noon (donor_of "AB+") ([donor_of "O-"] ++ [donor_of "A+"])
  /\ exists reason,
      predict None hiv_donor (donor_of "AB+") = Ok200 (Rejected false 0 reason)
      /\ mentions reason "HIV positive".
Proof.
  destruct (hard_stop_donor_rejected None noon (donor_of "AB+") hiv_donor
              [donor_of "O-"] [donor_of "A+"] eq_refl) as [Hrank [_ Hpair]].
  split; [exact Hrank | ].
  destruct (Hpair eq_refl) as [reason [Hp Hm]].
  exists reason. split; [exact Hp | ].
  apply (Hm "hivStatus"); [now left | reflexivity].
Defined.

Example hiv_scenario :
  predict None hiv_donor (donor_of "AB+")
  = Ok200 (Rejected false 0 "Permanent deferral: HIV positive")
  /\ match_donors None noon (donor_of "AB+") [hiv_donor]
     = match_donors None noon (donor_of "AB+") [].
Proof. split; reflexivity. Qed.

(** ** Rule-based score *)

Lemma bonus_if (c : bool) (score points : Z) :
  (if c then score + points else score) = score + bonus c points.
Proof. destruct c; simpl; lia. Qed.

Lemma bonus_range (c : bool) (points : Z) :
  0 <= points -> 0 <= bonus c points <= points.
Proof. destruct c; simpl; lia. Qed.

Lemma antigen_bonus_eq (d r : dict) (k : string) (score : Z) :
  antigen_bonus d r k score = score + bonus (present d k && present r k) 3.
Proof.
  unfold antigen_bonus, present. rewrite andb_comm. apply bonus_if.
Qed.

Lemma antigen_loop_count (md mr : dict) (variants : list string) (score : Z) :
  antigen_loop (VDict md) (VDict mr) variants score
  = Return (score
            + 3 * Z.of_nat (List.length
                  (filter (fun a => truthy (get md a) && truthy (get mr a))
                          variants))).
Proof.
  revert score. induction variants as [ | a variants IH]; intro score.
  - simpl. f_equal. lia.
  - cbn [antigen_loop value_get bind filter].
    destruct (truthy (get mr a)); cbn [bind].
    + rewrite IH. destruct (truthy (get md a)); cbn [andb List.length]; f_equal; lia.
    + rewrite IH. rewrite andb_false_r. reflexivity.
Qed.

Lemma blood_compatible_text (donor recipient : dict) :
  blood_compatible donor recipient = true ->
  exists s, get donor "bloodType" = VStr s.
Proof.
  intro H. apply py_in_strs in H as [s [H _]]. eauto.
Qed.

Lemma extra_bonuses_range (donor recipient : dict) :
  0 <= extra_bonuses donor recipient <= 36.
Proof.
  unfold extra_bonuses.
  pose proof (filter_length_le
                (fun a => rh_present donor a && rh_present recipient a)
                ["C"; "c"; "E"; "e"])%string as Hlen.
  cbn [List.length] in Hlen.
  pose proof (bonus_range (present donor "kell" && present recipient "kell") 3).
  pose proof (bonus_range (present donor "duffy" && present recipient "duffy") 3).
  pose proof (bonus_range (present donor "kidd" && present recipient "kidd") 3).
  pose proof (bonus_range (more_than_5_donations donor) 5).
  pose proof (bonus_range (is_text (get recipient "urgency") "critical"
                           && present donor "willingForEmergency") 10).
  lia.
Qed.

(** C4.  On a blood-type-compatible pair whose [rhVariants] and
    [totalDonations] fields are typed as in the data model, the rule-based
    score is the reference definition: 50, plus 20 for equal blood types,
    plus 3 per antigen of C, c, E, e present in both, plus 3 each for kell,
    duffy and kidd present in both, plus 5 for more than 5 donations, plus
    10 for a critical request and a donor willing for emergency, clamped to
    0..100; an exact blood-type match without other bonuses scores 70. *)
Theorem rule_based_score_reference (donor recipient : dict) :
  blood_compatible donor recipient = true ->
  rule_fields_typed donor recipient = true ->
  calculate_rule_based_score donor recipient
  = Return (reference_score donor recipient)
  /\ (same_blood_type donor recipient = true ->
      extra_bonuses donor recipient = 0 ->
      calculate_rule_based_score donor recipient = Return 70).
Proof.
  intros Hcompat Htyped.
  assert (Hmain : calculate_rule_based_score donor recipient
                  = Return (reference_score donor recipient)).
  { destruct (blood_compatible_text _ _ Hcompat) as [s Hs].
    unfold rule_fields_typed in Htyped.
    apply andb_true_iff in Htyped as [Htyped Hnum].
    apply andb_true_iff in Htyped as [Hd Hr].
    pose proof (extra_bonuses_range donor recipient) as Hrange.
    pose proof (bonus_range (same_blood_type donor recipient) 20) as Hsame.
    unfold reference_score, clamp, extra_bonuses, rh_present,
      more_than_5_donations, same_blood_type in *.
    unfold calculate_rule_based_score.
    rewrite Hs in *.
    destruct (get_default donor "rhVariants" (VDict [])) as [ | | | | | md];
      try discriminate Hd.
    destruct (get_default recipient "rhVariants" (VDict [])) as [ | | | | | mr];
      try discriminate Hr.
    rewrite antigen_loop_count. cbn [bind].
    unfold py_gt, is_numeric in *.
    destruct (as_number (get_default donor "totalDonations" (int 0))) as [q | ];
      try discriminate Hnum.
    cbn [bind]. rewrite !antigen_bonus_eq, !bonus_if, py_eq_text.
    replace (py_eq (VStr s) (get recipient "bloodType"))
      with (is_text (get recipient "bloodType") s)
      by (destruct (get recipient "bloodType"); simpl; auto using String.eqb_sym).
    f_equal. change (inject_Z 5) with 5%Q. unfold present in *. lia. }
  split; [exact Hmain | ].
  intros Hsame Hextra. rewrite Hmain. unfold reference_score.
  rewrite Hsame, Hextra. reflexivity.
Qed.

Lemma rule_based_score_reference_witness :
  calculate_rule_based_score (donor_of "A+") (donor_of "A+") = Return 70
  /\ calculate_rule_based_score (donor_of "O-") urgent_request
     = Return (reference_score (donor_of "O-") urgent_request).
Proof.
  split.
  - apply (rule_based_score_reference (donor_of "A+") (donor_of "A+"));
      reflexivity.
  - apply (rule_based_score_reference (donor_of "O-") urgent_request);
      reflexivity.
Defined.

(** ** Sorting *)

Lemma num_lt_false (a b : number) : num_lt a b = false <-> num_le b a = true.
Proof. unfold num_lt, num_le. destruct (Qle_bool (numQ b) (numQ a)); simpl; intuition. Qed.

Lemma num_lt_le (a b : number) : num_lt a b = true -> num_le a b = true.
Proof.
  unfold num_lt, num_le. intro H. apply Qle_bool_iff, Qlt_le_weak, Qnot_le_lt.
  intro Hle. apply Qle_bool_iff in Hle. rewrite Hle in H. discriminate.
Qed.

Lemma num_le_trans (a b c : number) :
  num_le a b = true -> num_le b c = true -> num_le a c = true.
Proof. unfold num_le. rewrite !Qle_bool_iff. apply Qle_trans. Qed.

Lemma num_eq_not_lt (a b k : number) :
  num_eq a k = true -> num_eq b k = true -> num_lt a b = false.
Proof.
  unfold num_eq, num_lt. intros Ha Hb.
  apply Qeq_bool_iff in Ha, Hb.
  assert (H : Qle_bool (numQ b) (numQ a) = true).
  { apply Qle_bool_iff. rewrite Ha, Hb. apply Qle_refl. }
  now rewrite H.
Qed.

Section SortFacts.
Context {A : Type} (key : A -> number).


Lemma insert_sorted_Forall (P : A -> Prop) (x : A) (l : list A) :
  P x -> Forall P l -> Forall P (insert_sorted key x l).
Proof.
  intros Hx Hl. induction Hl as [ | y l Hy Hl IH]; simpl.
  - auto.
  - destruct (num_lt (key y) (key x)); auto.
Qed.

Lemma insert_sorted_ascending (x : A) (l : list A) :
  StronglySorted (ascending key) l ->
  StronglySorted (ascending key) (insert_sorted key x l).
Proof.
  intro Hl. induction Hl as [ | y l Hl IH Hy]; simpl.
  - constructor; constructor.
  - destruct (num_lt (key y) (key x)) eqn:E.
    + constructor; [exact IH | ].
      apply insert_sorted_Forall; [ | exact Hy].
      now apply num_lt_le.
    + apply num_lt_false in E.
      constructor; [now constructor | ].
      constructor; [exact E | ].
      eapply Forall_impl; [ | exact Hy].
      intros z Hz. eapply num_le_trans; eassumption.
Qed.

Lemma stable_sort_ascending (l : list A) :
  StronglySorted (ascending key) (stable_sort key l).
Proof.
  induction l as [ | x l IH]; simpl.
  - constructor.
  - now apply insert_sorted_ascending.
Qed.

Lemma insert_sorted_filter (k : number) (x : A) (l : list A) :
  filter (same_key key k) (insert_sorted key x l) = filter (same_key key k) (x :: l).
Proof.
  induction l as [ | y l IH]; [reflexivity | ].
  cbn [insert_sorted]. destruct (num_lt (key y) (key x)) eqn:E; [ | reflexivity].
  cbn [filter] in *. rewrite IH.
  destruct (same_key key k y) eqn:Ey, (same_key key k x) eqn:Ex; try reflexivity.
  unfold same_key in Ey, Ex.
  rewrite (num_eq_not_lt _ _ _ Ey Ex) in E. discriminate.
Qed.

Lemma stable_sort_filter (k : number) (l : list A) :
  filter (same_key key k) (stable_sort key l) = filter (same_key key k) l.
Proof.
  induction l as [ | x l IH]; [reflexivity | ].
  cbn [stable_sort]. rewrite insert_sorted_filter. cbn [filter].
  now rewrite IH.
Qed.

Lemma ascending_snoc (l : list A) (x : A) :
  StronglySorted (descending key) l ->
  Forall (fun y => descending key y x) l ->
  StronglySorted (descending key) (l ++ [x]).
Proof.
  intros Hl Hx. induction Hl as [ | y l Hl IH Hy]; simpl.
  - constructor; constructor.
  - inversion Hx as [ | ? ? Hyx Hlx]; subst.
    constructor; [now apply IH | ].
    apply Forall_app. split; [exact Hy | now constructor].
Qed.

Lemma rev_descending (l : list A) :
  StronglySorted (ascending key) l -> StronglySorted (descending key) (rev l).
Proof.
  intro Hl. induction Hl as [ | x l Hl IH Hx]; simpl.
  - constructor.
  - apply ascending_snoc; [exact IH | ].
    apply Forall_rev. exact Hx.
Qed.

(** A descending [py_sort] is non-increasing in the key and keeps the
    elements of each key in their original order. *)
Lemma py_sort_reverse_descending (l : list A) :
  StronglySorted (descending key) (py_sort key true l).
Proof. apply rev_descending, stable_sort_ascending. Qed.

Lemma py_sort_reverse_stable (k : number) (l : list A) :
  filter (same_key key k) (py_sort key true l) = filter (same_key key k) l.
Proof.
  unfold py_sort.
  now rewrite filter_rev, stable_sort_filter, filter_rev, rev_involutive.
Qed.
End SortFacts.

(** ** The ranking loop, donor by donor *)

Lemma match_loop_candidates (model : option Model) (recipient : dict)
  (donors : list dict) (acc ms : list match_result) :
  match_loop model recipient
    (get_compatible_donor_types (get_default recipient "bloodType" (VStr "")))
    donors acc = Return ms ->
  ms = acc ++ candidates model recipient donors.
Proof.
  revert acc. induction donors as [ | d donors IH]; intros acc H.
  - simpl in H. injection H as <-. unfold candidates. simpl. now rewrite app_nil_r.
  - unfold candidates. cbn [flat_map]. fold (candidates model recipient donors).
    unfold candidate at 1.
    destruct (blood_compatible d recipient && negb (has_hard_stop d)) eqn:E.
    + rewrite match_loop_keep in H by exact E.
      destruct (donor_score model d recipient) as [score | e];
        [ | discriminate H].
      cbn [bind] in H. apply IH in H. now rewrite <- app_assoc in H.
    + rewrite match_loop_skip in H by exact E. now apply IH in H.
Qed.

(** C5.  The [matches] list of a ranking is sorted in non-increasing order
    of [compatibilityScore], and the matches of any one score appear in the
    order in which their donors appear in the input list. *)
Theorem ranking_sorted_stable (model : option Model) (now : string)
  (recipient : dict) (donors : list dict) (resp : match_response) :
  match_donors model now recipient donors = Ok200 resp ->
  non_increasing (matches resp)
  /\ forall s : number,
      filter (same_score s) (matches resp)
      = filter (same_score s) (candidates model recipient donors).
Proof.
  unfold match_donors, match_donors_body. intro H.
  destruct (match_loop model recipient _ donors []) as [ms | e] eqn:E;
    [ | discriminate H].
  cbn [bind handle] in H. injection H as <-. cbn [matches].
  apply match_loop_candidates in E. simpl in E. subst ms.
  split.
  - apply py_sort_reverse_descending.
  - intro s. apply py_sort_reverse_stable.
Qed.

Lemma ranking_sorted_stable_witness :
  exists resp,
    match_donors None noon (donor_of "AB+") mixed_donors = Ok200 resp
    /\ map donorBloodType (matches resp)
       = [VStr "AB+"; VStr "AB+"; VStr "O-"; VStr "B+"]
    /\ non_increasing (matches resp)
    /\ filter (same_score (Int 50)) (matches resp)
       = filter (same_score (Int 50))
           (candidates None (donor_of "AB+") mixed_donors).
Proof.
  eexists. split; [vm_compute; reflexivity | ].
  split; [reflexivity | ].
  destruct (ranking_sorted_stable None noon (donor_of "AB+") mixed_donors _ eq_refl)
    as [Hs Hf].
  split; [exact Hs | apply Hf].
Defined.

(** ** Score range *)

Lemma Qle_bool_false_le (x y : Q) : Qle_bool x y = false -> Qle_bool y x = true.
Proof.
  intro H. apply Qle_bool_iff, Qlt_le_weak, Qnot_le_lt.
  intro Hle. apply Qle_bool_iff in Hle. congruence.
Qed.

(** [min(100, max(0, score))] is within 0..100. *)
Lemma clamped_in_range (score : number) :
  in_range (py_min (Int 100) (py_max (Int 0) score)) = true.
Proof.
  unfold py_max, num_lt. cbn [numQ].
  destruct (Qle_bool (numQ score) (inject_Z 0)) eqn:E0; cbn [negb].
  - reflexivity.
  - unfold py_min, num_lt. cbn [numQ].
    destruct (Qle_bool (inject_Z 100) (numQ score)) eqn:E100; cbn [negb].
    + reflexivity.
    + unfold in_range, num_le. cbn [numQ].
      now rewrite (Qle_bool_false_le _ _ E0), (Qle_bool_false_le _ _ E100).
Qed.

(** The single-pair path: whatever the model returns, the score of a
    [predict] response is within 0..100. *)
Lemma predict_score_in_range (model : option Model) (donor recipient : dict)
  (body : predict_json) :
  predict model donor recipient = Ok200 body ->
  match body with
  | Rejected _ score _ => score = 0
  | Scored _ score _ _ => in_range score = true
  end.
Proof.
  unfold predict, predict_body. intro H.
  destruct (negb (py_in _ _)); [injection H as <-; reflexivity | ].
  destruct (negb (Nat.eqb _ 0)); [injection H as <-; reflexivity | ].
  match type of H with
  | handle (bind ?c _) = _ => destruct c as [score | e]; [ | discriminate H]
  end.
  cbn [bind handle] in H. injection H as <-. apply clamped_in_range.
Qed.

Lemma rule_based_score_range (donor recipient : dict) (score : Z) :
  calculate_rule_based_score donor recipient = Return score ->
  50 <= score <= 100.
Proof.
  unfold calculate_rule_based_score. intro H.
  match type of H with
  | bind (antigen_loop ?d ?r ?vs ?s) _ = _ =>
      assert (Hloop : forall z, antigen_loop d r vs s = Return z -> s <= z)
  end.
  { generalize ["C"; "c"; "E"; "e"]%string as vs.
    match goal with |- forall vs z, antigen_loop ?d ?r vs ?s = _ -> _ => generalize s end.
    intros s vs. revert s. induction vs as [ | a vs IH]; intros s z Hz.
    - injection Hz as <-. lia.
    - cbn [antigen_loop] in Hz.
      destruct (value_get _ a) as [rv | ]; [ | discriminate Hz]. cbn [bind] in Hz.
      destruct (truthy rv).
      + destruct (value_get _ a) as [dv | ]; [ | discriminate Hz]. cbn [bind] in Hz.
        apply IH in Hz. destruct (truthy dv); lia.
      + now apply IH in Hz. }
  destruct (antigen_loop _ _ _ _) as [z | ]; [ | discriminate H].
  specialize (Hloop z eq_refl). cbn [bind] in H.
  destruct (py_gt _ 5) as [b | ]; [ | discriminate H]. cbn [bind] in H.
  injection H as <-. rewrite !antigen_bonus_eq, !bonus_if.
  repeat match goal with
         | |- context [bonus ?c ?p] =>
             let Hb := fresh "Hb" in
             pose proof (bonus_range c p ltac:(lia)) as Hb;
             generalize dependent (bonus c p); intros
         end.
  destruct (py_eq _ _); lia.
Qed.

Section SortForall.
Context {A : Type} (key : A -> number) (P : A -> Prop).

Lemma stable_sort_Forall (l : list A) :
  Forall P l -> Forall P (stable_sort key l).
Proof.
  induction 1 as [ | x l Hx Hl IH]; simpl; [constructor | ].
  now apply insert_sorted_Forall.
Qed.

Lemma py_sort_Forall (reverse : bool) (l : list A) :
  Forall P l -> Forall P (py_sort key reverse l).
Proof.
  intro H. unfold py_sort. destruct reverse.
  - now apply Forall_rev, stable_sort_Forall, Forall_rev.
  - now apply stable_sort_Forall.
Qed.
End SortForall.

(** The batch path without a model: every score is a rule-based score,
    within 50..100. *)
Lemma ranking_rule_based_in_range (now : string) (recipient : dict)
  (donors : list dict) (resp : match_response) :
  match_donors None now recipient donors = Ok200 resp ->
  Forall (fun m => in_range (compatibilityScore m) = true) (matches resp).
Proof.
  unfold match_donors, match_donors_body. intro H.
  destruct (match_loop None recipient _ donors []) as [ms | e] eqn:E;
    [ | discriminate H].
  cbn [bind handle] in H. injection H as <-. cbn [matches].
  apply match_loop_candidates in E. simpl in E. subst ms.
  apply (py_sort_Forall compatibilityScore _ true). unfold candidates.
  apply Forall_flat_map, Forall_forall. intros d _. unfold candidate.
  destruct (_ && _); [ | constructor].
  unfold donor_score, rule_based, try_except.
  destruct (calculate_rule_based_score d recipient) as [z | ] eqn:Ez;
    cbn [bind]; [ | constructor].
  constructor; [ | constructor].
  apply rule_based_score_range in Ez. cbn [make_match compatibilityScore round1].
  unfold in_range, num_le. cbn [numQ].
  apply andb_true_iff. split; apply Qle_bool_iff;
    rewrite <- Zle_Qle; lia.
Qed.

(** C3.  The batch path with a loaded model does not clamp: a regressor
    that predicts 250 yields compatibilityScore 250, outside 0..100, while
    [predict] on the same pair answers 100. *)
Theorem ranking_score_not_clamped :
  (exists resp m,
      match_donors (Some overshooting_regressor) noon (donor_of "O+") [donor_of "O+"]
      = Ok200 resp
      /\ matches resp = [m]
      /\ num_eq (compatibilityScore m) (Int 250) = true
      /\ in_range (compatibilityScore m) = false)
  /\ predict (Some overshooting_regressor) (donor_of "O+") (donor_of "O+")
     = Ok200 (Scored true (Int 100) [] true).
Proof.
  split; [ | reflexivity].
  do 2 eexists. split; [vm_compute; reflexivity | ].
  split; [reflexivity | ]. split; reflexivity.
Qed.

(** ** Fallback from the learned path *)

(** On the batch path every failure of the learned path, in the encoder
    or in the model, is replaced by the rule-based score. *)
Lemma donor_score_fallback (m : Model) (donor recipient : dict) :
  (forall features,
      prepare_features donor recipient = Return features ->
      exists e, model_score m features = Raise e) ->
  donor_score (Some m) donor recipient = rule_based donor recipient.
Proof.
  intro H. unfold donor_score.
  destruct (prepare_features donor recipient) as [features | e]; cbn [bind].
  - destruct (H features eq_refl) as [e ->]. cbn [try_except].
    now destruct (rule_based donor recipient).
  - reflexivity.
Qed.

(** X18.  On the single-pair path a failure inside the model is replaced by
    the rule-based score as well: once the encoder has returned, a model
    call that raises yields the rule-based score, unchanged by the clamp,
    with the donor's warnings, and model_used stays true. *)
Lemma predict_model_failure_falls_back (m : Model) (donor recipient : dict)
  (features : list value) (e : exn) (score : Z) :
  blood_compatible donor recipient = true ->
  has_hard_stop donor = false ->
  prepare_features donor recipient = Return features ->
  model_score m features = Raise e ->
  calculate_rule_based_score donor recipient = Return score ->
  predict (Some m) donor recipient
  = Ok200 (Scored true (Int score) (check_temporary_deferrals donor) true).
Proof.
  intros Hc Hs Hf Hm Hr.
  pose proof (rule_based_score_range _ _ _ Hr) as Hrange.
  unfold predict, predict_body. fold (blood_compatible donor recipient).
  rewrite Hc, has_hard_stop_length, Hs, Hf. cbn [negb bind].
  rewrite Hm. cbn [try_except]. unfold rule_based. rewrite Hr. cbn [bind handle is_loaded].
  do 2 f_equal.
  unfold py_max, py_min, num_lt. cbn [numQ].
  assert (H0 : Qle_bool (inject_Z score) (inject_Z 0) = false).
  { destruct (Qle_bool _ _) eqn:E; [ | reflexivity].
    apply Qle_bool_iff in E. rewrite <- Zle_Qle in E. lia. }
  rewrite H0. cbn [negb numQ].
  assert (H100 : Qle_bool (inject_Z score) (inject_Z 100) = true).
  { apply Qle_bool_iff. rewrite <- Zle_Qle. lia. }
  destruct (Qle_bool (inject_Z 100) (inject_Z score)) eqn:E; cbn [negb];
    [ | reflexivity].
  apply Qle_bool_iff in E. rewrite <- Zle_Qle in E.
  f_equal. lia.
Qed.

Example broken_model_falls_back :
  predict (Some broken_model) (donor_of "O+") (donor_of "O+")
  = Ok200 (Scored true (Int 70) [] true).
Proof. reflexivity. Qed.

(** C6.  On the single-pair path the feature vector is built outside the
    inner [try]: with a model loaded and a recipient whose urgency is not
    one of the four levels, the encoder raises, [predict] answers with the
    error body instead of the rule-based score 70, while the batch path
    scores the same pair 70. *)
Theorem predict_encoder_failure_not_recovered :
  prepare_features (donor_of "O+") urgent_request = Raise ValueError
  /\ calculate_rule_based_score (donor_of "O+") urgent_request = Return 70
  /\ predict (Some classifier) (donor_of "O+") urgent_request = Error500 ValueError
  /\ exists resp m,
      match_donors (Some classifier) noon urgent_request [donor_of "O+"] = Ok200 resp
      /\ matches resp = [m]
      /\ compatibilityScore m = Int 70.
Proof.
  repeat split.
  do 2 eexists. split; [vm_compute; reflexivity | ].
  split; reflexivity.
Qed.

(** ** Malformed donor records *)

Lemma match_loop_raise (model : option Model) (recipient : dict)
  (types : list string) (donor : dict) (e : exn) (before after : list dict)
  (acc : list match_result) :
  py_in (get donor "bloodType") (strs types) && negb (has_hard_stop donor) = true ->
  donor_score model donor recipient = Raise e ->
  exists e', match_loop model recipient types (before ++ donor :: after) acc
             = Raise e'.
Proof.
  intros Hpass Hscore. revert acc.
  induction before as [ | d before IH]; intro acc.
  - simpl app. rewrite match_loop_keep by exact Hpass. rewrite Hscore. simpl. eauto.
  - rewrite <- app_comm_cons.
    destruct (py_in (get d "bloodType") (strs types) && negb (has_hard_stop d)) eqn:E.
    + rewrite match_loop_keep by exact E.
      destruct (donor_score model d recipient); simpl; eauto.
    + rewrite match_loop_skip by exact E. apply IH.
Qed.

(** C7, against the claim.  With a well-formed donor and a donor whose
    [totalDonations] is a string, the ranking is not that of the
    well-formed donor: the whole request ends in the error body. *)
Lemma malformed_donor_aborts_ranking :
  match_donors None noon (donor_of "O+") [donor_of "O+"; malformed_donor]
  = Error500 TypeError
  /\ match_donors None noon (donor_of "O+") [donor_of "O+"; malformed_donor]
     <> match_donors None noon (donor_of "O+") [donor_of "O+"].
Proof. split; [reflexivity | discriminate]. Qed.

(** C7, amended.  A donor record whose blood type is not among the
    recipient's compatible types (absent, unrecognised or not a string
    included) is excluded and the rest is ranked as if it were not there.
    A donor record that passes both filters and whose scoring raises makes
    the whole request end in the error body caught at the request
    boundary. *)
Theorem malformed_donor_handling (model : option Model) (now : string)
  (recipient donor : dict) (before after : list dict) :
  (blood_compatible donor recipient = false ->
   match_donors model now recipient (before ++ donor :: after)
   = match_donors model now recipient (before ++ after))
  /\ (blood_compatible donor recipient = true ->
      has_hard_stop donor = false ->
      forall e, donor_score model donor recipient = Raise e ->
      exists e', match_donors model now recipient (before ++ donor :: after)
                 = Error500 e').
Proof.
  split.
  - intro H. apply match_donors_remove. now rewrite H.
  - intros Hc Hs e He. unfold match_donors, match_donors_body.
    destruct (match_loop_raise model recipient
                (get_compatible_donor_types
                   (get_default recipient "bloodType" (VStr "")))
                donor e before after []) as [e' ->].
    + unfold blood_compatible in Hc. now rewrite Hc, Hs.
    + exact He.
    + simpl. eauto.
Qed.

Lemma malformed_donor_handling_witness :
  match_donors None noon (donor_of "O+")
    ([donor_of "O+"] ++ [("bloodType", VNum (Int 7))] :: [donor_of "O-"])
  = match_donors None noon (donor_of "O+") ([donor_of "O+"] ++ [donor_of "O-"])
  /\ exists e', match_donors None noon (donor_of "O+")
                  ([donor_of "O+"] ++ malformed_donor :: [])
                = Error500 e'.
Proof.
  split.
  - apply (malformed_donor_handling None noon (donor_of "O+")
             [("bloodType", VNum (Int 7))] [donor_of "O+"] [donor_of "O-"]).
    reflexivity.
  - apply (proj2 (malformed_donor_handling None noon (donor_of "O+")
                    malformed_donor [donor_of "O+"] []) eq_refl eq_refl TypeError).
    reflexivity.
Defined.

(** ** Feature encoder *)

Lemma py_in_position (s : string) (l : list string) :
  py_in (VStr s) (strs l)
  = match position s l with Some _ => true | None => false end.
Proof.
  induction l as [ | x l IH]; [reflexivity | ].
  unfold py_in, strs in *. cbn [map existsb position].
  rewrite py_eq_text. cbn [is_text].
  destruct (String.eqb s x); [reflexivity | ].
  cbn [orb]. rewrite IH. now destruct (position s l).
Qed.

Lemma py_index_position (s : string) (l : list string) :
  py_index (VStr s) (strs l)
  = match position s l with Some i => Return i | None => Raise ValueError end.
Proof.
  induction l as [ | x l IH]; [reflexivity | ].
  unfold strs in *. cbn [map py_index position].
  rewrite py_eq_text. cbn [is_text].
  destruct (String.eqb s x); [reflexivity | ].
  rewrite IH. now destruct (position s l).
Qed.

Lemma py_in_not_text (v : value) (l : list string) :
  (forall s, v <> VStr s) -> py_in v (strs l) = false.
Proof.
  intro H. destruct (py_in v (strs l)) eqn:E; [ | reflexivity].
  apply py_in_strs in E as [s [-> _]]. now destruct (H s).
Qed.

Lemma py_in_index (v : value) (l : list string) :
  py_in v (strs l) = true -> exists i, py_index v (strs l) = Return i.
Proof.
  intro H. destruct (proj1 (py_in_strs v l) H) as [s [-> _]].
  rewrite py_in_position in H. rewrite py_index_position.
  destruct (position s l); [eauto | discriminate].
Qed.

(** The blood type entry is the ordinal of the field, never an exception. *)
Lemma blood_type_feature_ordinal (person : dict) :
  blood_type_feature person
  = Return (int (blood_ordinal (lookup "bloodType" person))).
Proof.
  unfold blood_type_feature, get, get_default, blood_ordinal.
  destruct (lookup "bloodType" person) as [v | ].
  - destruct v as [ | b | n | s | l | d];
      try (rewrite py_in_not_text by discriminate; reflexivity).
    rewrite py_in_position, py_index_position.
    now destruct (position s blood_types).
  - rewrite py_in_none. reflexivity.
Qed.

Lemma rh_feature_mapping (person : dict) (variant : string) :
  is_mapping (get_default person "rhVariants" (VDict [])) = true ->
  rh_feature person variant = Return (one_if (rh_present person variant)).
Proof.
  unfold rh_feature, rh_present.
  destruct (get_default person "rhVariants" (VDict [])); try discriminate.
  reflexivity.
Qed.

Lemma eval_entries_app (l1 l2 : list (string * result value)) :
  eval_entries (l1 ++ l2)
  = (a <- eval_entries l1 ;; b <- eval_entries l2 ;; Return (a ++ b)).
Proof.
  induction l1 as [ | [k c] l1 IH]; simpl.
  - now destruct (eval_entries l2).
  - destruct c as [v | e]; simpl; [ | reflexivity].
    rewrite IH. destruct (eval_entries l1); simpl; [ | reflexivity].
    now destruct (eval_entries l2).
Qed.

Lemma eval_entries_length (l : list (string * result value)) (d : dict) :
  eval_entries l = Return d -> List.length d = List.length l.
Proof.
  revert d. induction l as [ | [k c] l IH]; intros d H; simpl in H.
  - now injection H as <-.
  - destruct c as [v | e]; [ | discriminate H]. simpl in H.
    destruct (eval_entries l) as [d' | ]; [ | discriminate H].
    simpl in H. injection H as <-. simpl. f_equal. now apply IH.
Qed.

Lemma firstn_skipn_exact {A : Type} (n : nat) (a b : list A) :
  List.length a = n -> firstn n (a ++ b) = a /\ skipn n (a ++ b) = b.
Proof.
  intros <-. induction a as [ | x a [IH1 IH2]]; simpl; [auto | ].
  now rewrite IH1, IH2.
Qed.

(** A vector the encoder returns is the donor entries followed by the
    recipient entries. *)
Lemma prepare_features_parts (donor recipient : dict) (v : list value) :
  prepare_features donor recipient = Return v ->
  exists dv rv,
    eval_entries (firstn 14 (feature_entries donor recipient)) = Return dv
    /\ eval_entries (skipn 14 (feature_entries donor recipient)) = Return rv
    /\ donor_part v = values dv
    /\ recipient_part v = values rv
    /\ List.length v = 31%nat.
Proof.
  unfold prepare_features. intro H.
  rewrite <- (firstn_skipn 14 (feature_entries donor recipient)) in H.
  rewrite eval_entries_app in H.
  destruct (eval_entries (firstn 14 _)) as [dv | ] eqn:Ed; [ | discriminate H].
  destruct (eval_entries (skipn 14 _)) as [rv | ] eqn:Er; [ | discriminate H].
  cbn [bind] in H. injection H as <-.
  apply eval_entries_length in Ed, Er.
  exists dv, rv. unfold values, donor_part, recipient_part.
  rewrite map_app.
  destruct (firstn_skipn_exact 14 (map snd dv) (map snd rv)) as [H1 H2].
  { rewrite length_map. exact Ed. }
  repeat split; try assumption.
  rewrite length_app, !length_map, Ed, Er. reflexivity.
Qed.

Lemma numeric_default (d : dict) (k : string) (z : Z) :
  numeric_field d k = true -> is_numeric (get_default d k (int z)) = true.
Proof.
  unfold numeric_field, get_default. now destruct (lookup k d).
Qed.

Lemma numeric_one_if (c : bool) : is_numeric (one_if c) = true.
Proof. now destruct c. Qed.

(** C8, against the claim.  On the empty donor and recipient records the
    encoder returns 31 values, not 27: 14 from the donor and 17 from the
    recipient. *)
Lemma feature_vector_not_27 :
  exists v,
    prepare_features [] [] = Return v
    /\ List.length v = 31%nat
    /\ List.length v <> 27%nat
    /\ List.length (donor_part v) = 14%nat
    /\ List.length (recipient_part v) = 17%nat
    /\ List.length (recipient_part v) <> 13%nat.
Proof.
  eexists. split; [reflexivity | ].
  repeat split; simpl; lia.
Qed.

(** C8, amended.  On a pair whose fields are typed as in the data model
    the encoder returns a vector of exactly 31 numbers, the first 14
    determined by the donor alone and the last 17 by the recipient alone;
    the blood type entries (positions 0 and 14) hold the ordinal of the
    blood type in the ordering A+, A-, B+, B-, AB+, AB-, O+, O-, and 0 for
    an unknown or missing blood type. *)
Theorem feature_vector_shape (donor recipient : dict) :
  encoder_fields_typed donor recipient = true ->
  exists v,
    prepare_features donor recipient = Return v
    /\ List.length v = 31%nat
    /\ List.length (donor_part v) = 14%nat
    /\ List.length (recipient_part v) = 17%nat
    /\ Forall (fun x => is_numeric x = true) v
    /\ nth 0 v VNone = int (blood_ordinal (lookup "bloodType" donor))
    /\ nth 14 v VNone = int (blood_ordinal (lookup "bloodType" recipient))
    /\ (forall recipient' v',
          prepare_features donor recipient' = Return v' ->
          donor_part v' = donor_part v)
    /\ (forall donor' v',
          prepare_features donor' recipient = Return v' ->
          recipient_part v' = recipient_part v)
    /\ (forall i s,
          nth_error blood_types i = Some s ->
          blood_ordinal (Some (VStr s)) = Z.of_nat i)
    /\ (forall field,
          (forall s, In s blood_types -> field <> Some (VStr s)) ->
          blood_ordinal field = 0).
Proof.
  intro Htyped. unfold encoder_fields_typed in Htyped.
  repeat (apply andb_true_iff in Htyped as [Htyped ?]).
  rename Htyped into Hd.
  match goal with H : is_mapping (get_default recipient _ _) = true |- _ =>
    rename H into Hr end.
  match goal with H : py_in _ (strs urgency_levels) = true |- _ =>
    apply py_in_index in H as [u Hu] end.
  match goal with H : forallb (numeric_field donor) _ = true |- _ =>
    cbn [forallb] in H; rename H into Hnd end.
  match goal with H : forallb (numeric_field recipient) _ = true |- _ =>
    cbn [forallb] in H; rename H into Hnr end.
  repeat (apply andb_true_iff in Hnd as [? Hnd]).
  repeat (apply andb_true_iff in Hnr as [? Hnr]).
  assert (Hv : exists v, prepare_features donor recipient = Return v
                         /\ Forall (fun x => is_numeric x = true) v
                         /\ nth 0 v VNone = int (blood_ordinal (lookup "bloodType" donor))
                         /\ nth 14 v VNone
                            = int (blood_ordinal (lookup "bloodType" recipient))).
  { eexists. split.
    - unfold prepare_features, feature_entries, flag_feature.
      rewrite !blood_type_feature_ordinal, Hu.
      rewrite !(rh_feature_mapping donor) by exact Hd.
      rewrite !(rh_feature_mapping recipient) by exact Hr.
      cbn [eval_entries bind values map snd]. reflexivity.
    - split; [ | split; reflexivity].
      repeat (constructor;
              [ first [ reflexivity | apply numeric_one_if
                      | apply numeric_default; assumption ] | ]).
      constructor. }
  destruct Hv as [v [Hv [Hnum [Hfirst Hfifteenth]]]].
  destruct (prepare_features_parts _ _ _ Hv) as [dv [rv [Hdv [Hrv [Hdp [Hrp Hlen]]]]]].
  exists v. repeat split; try assumption.
  - rewrite Hdp. unfold values. rewrite length_map.
    now apply eval_entries_length in Hdv.
  - rewrite Hrp. unfold values. rewrite length_map.
    now apply eval_entries_length in Hrv.
  - intros recipient' v' Hv'.
    destruct (prepare_features_parts _ _ _ Hv') as [dv' [_ [Hdv' [_ [Hdp' _]]]]].
    change (firstn 14 (feature_entries donor recipient'))
      with (firstn 14 (feature_entries donor recipient)) in Hdv'.
    congruence.
  - intros donor' v' Hv'.
    destruct (prepare_features_parts _ _ _ Hv') as [_ [rv' [_ [Hrv' [_ [Hrp' _]]]]]].
    change (skipn 14 (feature_entries donor' recipient))
      with (skipn 14 (feature_entries donor recipient)) in Hrv'.
    congruence.
  - intros i s Hi.
    do 8 (destruct i as [ | i]; [injection Hi as <-; reflexivity | ]).
    destruct i; discriminate Hi.
  - intros field Hfield. unfold blood_ordinal.
    destruct field as [[ | | | s | | ] | ]; try reflexivity.
    destruct (position s blood_types) as [i | ] eqn:E; [ | reflexivity].
    exfalso. apply (Hfield s); [ | reflexivity].
    assert (Hin : py_in (VStr s) (strs blood_types) = true)
      by (rewrite py_in_position, E; reflexivity).
    apply py_in_strs in Hin as [s' [Heq Hs']]. now injection Heq as ->.
Qed.

Lemma feature_vector_shape_witness :
  exists v,
    prepare_features [("bloodType", VStr "O-"); ("age", VNum (Int 41))]
                     urgent_request_critical = Return v
    /\ List.length v = 31%nat
    /\ nth 0 v VNone = int 7
    /\ nth 14 v VNone = int 6.
Proof.
  destruct (feature_vector_shape
              [("bloodType", VStr "O-"); ("age", VNum (Int 41))]
              urgent_request_critical eq_refl)
    as [v [Hv [Hlen [_ [_ [_ [H0 [H14 _]]]]]]]].
  exists v. repeat split; assumption.
Defined.

(** ** Repeated calls *)

(** C9, against the claim.  Two calls with the same model, request and
    donors, made at different readings of the clock, return different
    responses. *)
Lemma ranking_differs_across_time :
  match_donors None noon (donor_of "AB+") mixed_donors
  <> match_donors None midnight (donor_of "AB+") mixed_donors.
Proof. vm_compute. discriminate. Qed.

(** C9, amended.  Two calls with the same model, request and donors agree
    on everything but the [timestamp] field, which holds the reading of
    the clock at each call; an error body is the same in both. *)
Theorem ranking_deterministic_up_to_timestamp (model : option Model)
  (now later : string) (recipient : dict) (donors : list dict) :
  without_timestamp (match_donors model now recipient donors)
  = without_timestamp (match_donors model later recipient donors)
  /\ (forall resp,
        match_donors model now recipient donors = Ok200 resp ->
        timestamp resp = now)
  /\ (forall e,
        match_donors model now recipient donors = Error500 e ->
        match_donors model later recipient donors = Error500 e).
Proof.
  unfold match_donors, match_donors_body.
  destruct (match_loop model recipient _ donors []) as [ms | e];
    cbn [bind handle without_timestamp].
  - repeat split.
    + intros resp H. now injection H as <-.
    + intros e H. discriminate H.
  - repeat split.
    + intros resp H. discriminate H.
    + intros e' H. exact H.
Qed.

(** ** Donors without a blood type *)

(** C10, against the claim.  A donor record without [bloodType] is not
    treated as O+: for an O+ recipient it is rejected by [predict] and
    left out of the ranking, while the same record with bloodType O+ is
    scored and ranked. *)
Lemma missing_blood_type_not_O_positive :
  predict None no_blood_type_donor (donor_of "O+")
  = Ok200 (Rejected false 0 "Blood type incompatible")
  /\ predict None (("bloodType", VStr "O+") :: no_blood_type_donor) (donor_of "O+")
     = Ok200 (Scored true (Int 70) [] false)
  /\ (exists resp,
        match_donors None noon (donor_of "O+") [no_blood_type_donor] = Ok200 resp
        /\ matches resp = [])
  /\ (exists resp m,
        match_donors None noon (donor_of "O+")
          [("bloodType", VStr "O+") :: no_blood_type_donor] = Ok200 resp
        /\ matches resp = [m]).
Proof.
  repeat split.
  - eexists. split; [vm_compute; reflexivity | reflexivity].
  - do 2 eexists. split; [vm_compute; reflexivity | reflexivity].
Qed.

(** C10, amended.  A donor record without [bloodType] is compatible with
    no recipient: [predict] answers compatible=false, score=0, reason
    "Blood type incompatible"; the ranking is the one obtained without that
    donor; the encoder gives its blood type entry the value 0.  None of
    this raises. *)
Theorem missing_blood_type_excluded (model : option Model) (now : string)
  (recipient donor : dict) (before after : list dict) :
  lookup "bloodType" donor = None ->
  blood_compatible donor recipient = false
  /\ predict model donor recipient
     = Ok200 (Rejected false 0 "Blood type incompatible")
  /\ match_donors model now recipient (before ++ donor :: after)
     = match_donors model now recipient (before ++ after)
  /\ candidate model recipient donor = []
  /\ blood_type_feature donor = Return (int 0).
Proof.
  intro Hmissing.
  assert (Hc : blood_compatible donor recipient = false).
  { unfold blood_compatible, get. rewrite Hmissing. apply py_in_none. }
  repeat split.
  - exact Hc.
  - unfold predict, predict_body. fold (blood_compatible donor recipient).
    now rewrite Hc.
  - apply match_donors_remove. now rewrite Hc.
  - unfold candidate. now rewrite Hc.
  - rewrite blood_type_feature_ordinal, Hmissing. reflexivity.
Qed.

Lemma missing_blood_type_excluded_witness :
  predict None no_blood_type_donor (donor_of "O+")
  = Ok200 (Rejected false 0 "Blood type incompatible")
  /\ match_donors None noon (donor_of "O+")
       ([donor_of "O-"] ++ no_blood_type_donor :: [donor_of "O+"])
     = match_donors None noon (donor_of "O+") ([donor_of "O-"] ++ [donor_of "O+"]).
Proof.
  destruct (missing_blood_type_excluded None noon (donor_of "O+")
              no_blood_type_donor [donor_of "O-"] [donor_of "O+"] eq_refl)
    as [_ [Hp [Hm _]]].
  split; assumption.
Defined.


(** * Further properties of the handlers *)

(** ** Screening checklists *)

(** X1.  Both screeners return exactly the labels of the flags that are
    set (truthy) on the donor, in checklist order and without repetition;
    in particular the list is empty exactly when no flag is set. *)
Theorem screeners_list_set_flags (donor : dict) :
  check_hard_stops donor = set_labels hard_stop_flags donor
  /\ check_temporary_deferrals donor = set_labels temporary_flags donor
  /\ (check_temporary_deferrals donor = []
      <-> forall flag label,
            In (flag, label) temporary_flags -> truthy (get donor flag) = false)
  /\ NoDup (check_hard_stops donor)
  /\ NoDup (check_temporary_deferrals donor).
Proof.
  assert (Hh : check_hard_stops donor = set_labels hard_stop_flags donor).
  { unfold check_hard_stops, append_if, set_labels, hard_stop_flags.
    cbn [filter map fst snd].
    destruct (truthy (get donor "hivStatus")), (truthy (get donor "hepatitisB")),
      (truthy (get donor "hepatitisC")), (truthy (get donor "htlv")),
      (truthy (get donor "ivDrugUse")); reflexivity. }
  assert (Ht : check_temporary_deferrals donor = set_labels temporary_flags donor).
  { unfold check_temporary_deferrals, append_if, set_labels, temporary_flags.
    cbn [filter map fst snd].
    destruct (truthy (get donor "recentColdFlu")),
      (truthy (get donor "recentTattoo")), (truthy (get donor "recentSurgery")),
      (truthy (get donor "pregnant")), (truthy (get donor "recentVaccination")),
      (truthy (get donor "recentTravel")); reflexivity. }
  assert (Hnodup : forall checklist,
             NoDup (map snd checklist) -> NoDup (set_labels checklist donor)).
  { intros checklist. unfold set_labels.
    induction checklist as [ | [f l] checklist IH]; intro H; [constructor | ].
    cbn [map snd] in H. inversion H as [ | ? ? Hnotin Hrest]; subst.
    cbn [filter fst]. destruct (truthy (get donor f)); [ | now apply IH].
    cbn [map snd]. constructor; [ | now apply IH].
    intro Hin. apply Hnotin. apply in_map_iff in Hin as [[f' l'] [Heq Hin]].
    apply filter_In in Hin as [Hin _]. simpl in Heq. subst l'.
    apply in_map_iff. now exists (f', l). }
  repeat split.
  - exact Hh.
  - exact Ht.
  - rewrite Ht. unfold set_labels. intros Hnil flag label Hin.
    destruct (truthy (get donor flag)) eqn:E; [ | reflexivity].
    assert (Hl : In label (map snd (filter (fun entry => truthy (get donor (fst entry)))
                                      temporary_flags))).
    { apply in_map_iff. exists (flag, label). split; [reflexivity | ].
      apply filter_In. split; [exact Hin | exact E]. }
    rewrite Hnil in Hl. destruct Hl.
  - intro Hall. rewrite Ht. unfold set_labels.
    revert Hall. generalize temporary_flags as checklist.
    induction checklist as [ | [f l] checklist IH]; intro Hall; [reflexivity | ].
    cbn [filter fst]. rewrite (Hall f l) by now left.
    apply IH. intros flag label Hin. apply (Hall flag label). now right.
  - rewrite Hh. apply Hnodup. unfold hard_stop_flags. cbn [map snd].
    repeat (constructor; [simpl; intuition discriminate | ]). constructor.
  - rewrite Ht. apply Hnodup. unfold temporary_flags. cbn [map snd].
    repeat (constructor; [simpl; intuition discriminate | ]). constructor.
Qed.

(** ** Shape of the compatibility relation *)

Lemma name_injective (s t : BloodType) : name s = name t -> s = t.
Proof. destruct s as [[] []], t as [[] []]; intro H; try discriminate H; reflexivity. Qed.

Lemma known_blood_type_name (v : value) :
  known_blood_type v = true <-> exists R, v = VStr (name R).
Proof.
  unfold known_blood_type. rewrite existsb_exists. split.
  - intros [s [Hs Ht]]. apply is_text_true in Ht.
    apply in_map_iff in Hs as [R [<- _]]. eauto.
  - intros [R ->]. exists (name R). split.
    + apply in_map, blood_type_cases.
    + now apply is_text_true.
Qed.

Lemma unknown_type_no_donors (v : value) :
  known_blood_type v = false -> get_compatible_donor_types v = [].
Proof.
  intro Hv.
  destruct (get_compatible_donor_types v) as [ | s l] eqn:E; [reflexivity | ].
  assert (Hs : In s (get_compatible_donor_types v)) by (rewrite E; now left).
  apply compatible_iff_classical in Hs as [R [D [-> _]]].
  destruct R as [[] []]; discriminate Hv.
Qed.

Lemma can_receive_trans (a b c : BloodType) :
  can_receive c b = true -> can_receive b a = true -> can_receive c a = true.
Proof.
  destruct a as [[] []], b as [[] []]; intros H1 H2; try discriminate H2;
    destruct c as [[] []]; try discriminate H1; reflexivity.
Qed.

(** X2.  "Can donate to", as [get_compatible_donor_types] computes it, is a
    partial order on the eight blood types: every type donates to itself,
    donation chains compose, two distinct types never donate to each
    other; and the returned list never repeats a type. *)
Theorem compatibility_is_partial_order :
  (forall R : BloodType,
      In (name R) (get_compatible_donor_types (VStr (name R))))
  /\ (forall a b c : string,
        In a (get_compatible_donor_types (VStr b)) ->
        In b (get_compatible_donor_types (VStr c)) ->
        In a (get_compatible_donor_types (VStr c)))
  /\ (forall a b : string,
        In a (get_compatible_donor_types (VStr b)) ->
        In b (get_compatible_donor_types (VStr a)) ->
        a = b)
  /\ (forall v : value, NoDup (get_compatible_donor_types v)).
Proof.
  repeat split.
  - intro R. apply compatible_iff_classical. exists R, R.
    destruct R as [[] []]; repeat split.
  - intros a b c Ha Hb.
    apply compatible_iff_classical in Ha as [Rb [Da [Hb1 [-> Hab]]]].
    apply compatible_iff_classical in Hb as [Rc [Db [-> [Hb2 Hbc]]]].
    injection Hb1 as ->. apply name_injective in Hb2. subst Db.
    apply compatible_iff_classical. exists Rc, Da. repeat split.
    eapply can_receive_trans; eassumption.
  - intros a b Ha Hb.
    apply compatible_iff_classical in Ha as [Rb [Da [Hb1 [-> Hab]]]].
    apply compatible_iff_classical in Hb as [Ra [Db [Ha1 [Hb2 Hba]]]].
    injection Hb1 as ->. injection Ha1 as Ha1.
    apply name_injective in Ha1, Hb2. subst Ra Db.
    destruct Da as [[] []], Rb as [[] []]; try discriminate Hab;
      try discriminate Hba; reflexivity.
  - intro v. destruct (known_blood_type v) eqn:E.
    + apply known_blood_type_name in E as [R ->].
      destruct R as [[] []]; vm_compute;
        repeat (constructor; [simpl; intuition discriminate | ]); constructor.
    + rewrite unknown_type_no_donors by exact E. constructor.
Qed.

(** ** Requests no donor can serve *)

Lemma match_loop_no_types (model : option Model) (recipient : dict)
  (donors : list dict) (acc : list match_result) :
  match_loop model recipient [] donors acc = Return acc.
Proof.
  induction donors as [ | d donors IH]; [reflexivity | ].
  now rewrite match_loop_skip by reflexivity.
Qed.

(** X3.  When the recipient's blood type is missing or is not one of the
    eight types, no donor is scored: the ranking succeeds with an empty
    match list and count 0 whatever the donor records hold (malformed ones
    included), and [predict] rejects every donor as blood-type
    incompatible. *)
Theorem unknown_recipient_type_matches_nobody (model : option Model)
  (now : string) (recipient : dict) :
  known_blood_type (get_default recipient "bloodType" (VStr "")) = false ->
  (forall donors,
      exists resp,
        match_donors model now recipient donors = Ok200 resp
        /\ matches resp = []
        /\ totalMatchesFound resp = 0%nat)
  /\ (forall donor,
        predict model donor recipient
        = Ok200 (Rejected false 0 "Blood type incompatible")).
Proof.
  intro H. apply unknown_type_no_donors in H. split.
  - intro donors. unfold match_donors, match_donors_body.
    rewrite H, match_loop_no_types. cbn [bind handle].
    eexists. split; [reflexivity | ]. split; reflexivity.
  - intro donor. unfold predict, predict_body. rewrite H. reflexivity.
Qed.

Lemma unknown_recipient_type_matches_nobody_witness :
  (exists resp,
      match_donors None noon [("bloodType", VStr "o+")] [donor_of "O-"; malformed_donor]
      = Ok200 resp
      /\ matches resp = []
      /\ totalMatchesFound resp = 0%nat)
  /\ predict (Some broken_model) (donor_of "O-") []
     = Ok200 (Rejected false 0 "Blood type incompatible").
Proof.
  split.
  - apply (unknown_recipient_type_matches_nobody None noon
             [("bloodType", VStr "o+")]); reflexivity.
  - apply (unknown_recipient_type_matches_nobody (Some broken_model) noon []);
      reflexivity.
Defined.

(** ** Outcomes of [predict] *)

(** X4.  [predict] has three outcomes.  A 200 rejection, with
    compatible=false and score 0, exactly for a donor that fails a filter;
    the blood-type filter comes first, so an incompatible donor is rejected
    as such even when a hard stop is set.  A 200 score for a donor that
    passes both filters, with compatible=true, a score within 0..100, the
    donor's temporary-deferral warnings, and model_used telling whether a
    model is loaded.  The error body only for a donor that passes both
    filters. *)
Theorem predict_outcomes (model : option Model) (donor recipient : dict) :
  (blood_compatible donor recipient = false ->
   predict model donor recipient
   = Ok200 (Rejected false 0 "Blood type incompatible"))
  /\ (forall compatible score reason,
        predict model donor recipient = Ok200 (Rejected compatible score reason) ->
        compatible = false /\ score = 0
        /\ passes_filters donor recipient = false)
  /\ (forall compatible score warnings model_used,
        predict model donor recipient
        = Ok200 (Scored compatible score warnings model_used) ->
        compatible = true
        /\ in_range score = true
        /\ warnings = check_temporary_deferrals donor
        /\ model_used = is_loaded model
        /\ passes_filters donor recipient = true)
  /\ (forall e,
        predict model donor recipient = Error500 e ->
        passes_filters donor recipient = true).
Proof.
  unfold predict, predict_body, passes_filters.
  fold (blood_compatible donor recipient). rewrite has_hard_stop_length.
  destruct (blood_compatible donor recipient); cbn [negb andb];
    [ destruct (has_hard_stop donor); cbn [negb];
      [ | match goal with
          | |- context [handle (bind ?c _)] => destruct c as [score | e]
          end; cbn [bind handle] ] | ];
    repeat split; try discriminate; intros;
    repeat match goal with
           | H : handle _ = _ |- _ => cbn [handle] in H
           | H : Ok200 _ = Ok200 _ |- _ => injection H as H
           | H : Rejected _ _ _ = Rejected _ _ _ |- _ => injection H; clear H; intros
           | H : Scored _ _ _ _ = Scored _ _ _ _ |- _ => injection H; clear H; intros
           end;
    subst; try reflexivity; try discriminate; try apply clamped_in_range.
Qed.

(** ** Rule-based score: failure modes, inputs, bounds *)

Lemma antigen_loop_bad_recipient (donor_rh recipient_rh : value) (a : string)
  (variants : list string) (score : Z) :
  is_mapping recipient_rh = false ->
  antigen_loop donor_rh recipient_rh (a :: variants) score = Raise AttributeError.
Proof. destruct recipient_rh; intro H; try discriminate H; reflexivity. Qed.

Lemma antigen_loop_bad_donor (donor_rh : value) (mr : dict)
  (variants : list string) (score : Z) :
  is_mapping donor_rh = false ->
  antigen_loop donor_rh (VDict mr) variants score
  = if existsb (fun a => truthy (get mr a)) variants
    then Raise AttributeError else Return score.
Proof.
  intro H. revert score. induction variants as [ | a variants IH]; intro score.
  - reflexivity.
  - cbn [antigen_loop value_get bind existsb].
    destruct (truthy (get mr a)); cbn [orb].
    + destruct donor_rh; try discriminate H; reflexivity.
    + apply IH.
Qed.

Lemma rule_based_cases (donor recipient : dict) :
  (rh_readable donor recipient = false
   /\ calculate_rule_based_score donor recipient = Raise AttributeError)
  \/ (rh_readable donor recipient = true
      /\ donations_numeric donor = false
      /\ calculate_rule_based_score donor recipient = Raise TypeError)
  \/ (rh_readable donor recipient = true
      /\ donations_numeric donor = true
      /\ exists score, calculate_rule_based_score donor recipient = Return score).
Proof.
  unfold calculate_rule_based_score, rh_readable, donations_numeric, is_numeric, py_gt.
  destruct (get_default recipient "rhVariants" (VDict [])) as [ | | | | | mr] eqn:Er;
    try (left; split; [reflexivity | ];
         rewrite antigen_loop_bad_recipient by reflexivity; reflexivity).
  destruct (is_mapping (get_default donor "rhVariants" (VDict []))) eqn:Ed.
  - rewrite orb_true_r.
    destruct (get_default donor "rhVariants" (VDict [])) as [ | | | | | md];
      try discriminate Ed.
    rewrite antigen_loop_count. cbn [bind].
    destruct (as_number (get_default donor "totalDonations" (int 0))); cbn [bind].
    + right. right. repeat split. eauto.
    + right. left. repeat split.
  - rewrite antigen_loop_bad_donor by exact Ed. rewrite orb_false_r.
    destruct (existsb (fun a => truthy (get mr a)) ["C"; "c"; "E"; "e"]%string);
      cbn [negb bind].
    + left. split; reflexivity.
    + destruct (as_number (get_default donor "totalDonations" (int 0))); cbn [bind].
      * right. right. repeat split. eauto.
      * right. left. repeat split.
Qed.

(** X5.  The rule-based score fails in two ways only.  AttributeError,
    exactly when the recipient's [rhVariants] is not a mapping, or the
    donor's is not while the recipient carries one of C, c, E, e (a
    malformed donor [rhVariants] is never read otherwise).  TypeError,
    exactly when the antigen loop went through and [totalDonations] is not
    a number.  In every other case a score is returned. *)
Theorem rule_based_failure_modes (donor recipient : dict) :
  (calculate_rule_based_score donor recipient = Raise AttributeError
   <-> rh_readable donor recipient = false)
  /\ (calculate_rule_based_score donor recipient = Raise TypeError
      <-> rh_readable donor recipient = true /\ donations_numeric donor = false)
  /\ ((exists score, calculate_rule_based_score donor recipient = Return score)
      <-> rh_readable donor recipient = true /\ donations_numeric donor = true).
Proof.
  destruct (rule_based_cases donor recipient)
    as [[Hr Hc] | [[Hr [Hn Hc]] | [Hr [Hn [score Hc]]]]];
    rewrite Hc, Hr; try rewrite Hn;
    (split; [ | split]); split; intro H;
    try reflexivity; try discriminate H; try (now split);
    try (destruct H as [H1 H2]; first [discriminate H1 | discriminate H2]);
    try (destruct H as [z H]; discriminate H); eauto.
Qed.

(** X6.  The rule-based score reads seven fields of the donor and six of
    the recipient: two pairs of records that agree on those fields get the
    same result.  Names, contact data, age, deferral flags and the like
    never change it. *)
Theorem rule_based_reads_only_its_fields (donor donor' recipient recipient' : dict) :
  agree_on rule_donor_keys donor donor' ->
  agree_on rule_recipient_keys recipient recipient' ->
  calculate_rule_based_score donor recipient
  = calculate_rule_based_score donor' recipient'.
Proof.
  intros Hd Hr.
  assert (Hgd : forall k, In k rule_donor_keys -> get donor k = get donor' k)
    by (intros k Hk; unfold get; now rewrite (Hd k Hk)).
  assert (Hgr : forall k, In k rule_recipient_keys -> get recipient k = get recipient' k)
    by (intros k Hk; unfold get; now rewrite (Hr k Hk)).
  assert (Hdd : forall k v, In k rule_donor_keys ->
                            get_default donor k v = get_default donor' k v)
    by (intros k v Hk; unfold get_default; now rewrite (Hd k Hk)).
  assert (Hdr : forall k v, In k rule_recipient_keys ->
                            get_default recipient k v = get_default recipient' k v)
    by (intros k v Hk; unfold get_default; now rewrite (Hr k Hk)).
  unfold calculate_rule_based_score, antigen_bonus.
  rewrite (Hgd "bloodType"), (Hgd "kell"), (Hgd "duffy"), (Hgd "kidd"),
    (Hgd "willingForEmergency"), (Hdd "rhVariants"), (Hdd "totalDonations"),
    (Hgr "bloodType"), (Hgr "kell"), (Hgr "duffy"), (Hgr "kidd"),
    (Hgr "urgency"), (Hdr "rhVariants");
    try reflexivity; simpl; tauto.
Qed.

Lemma rule_based_reads_only_its_fields_witness :
  calculate_rule_based_score
    (("donorName", VStr "Sam") :: ("recentTattoo", VBool true) :: donor_of "A+")
    urgent_request_critical
  = calculate_rule_based_score (donor_of "A+")
      (("userName", VStr "Kim") :: urgent_request_critical).
Proof.
  apply rule_based_reads_only_its_fields; intros k Hk; simpl in Hk;
    split_cases Hk; try contradiction; subst k; reflexivity.
Defined.

Lemma antigen_loop_bounds (donor_rh recipient_rh : value)
  (variants : list string) (score z : Z) :
  antigen_loop donor_rh recipient_rh variants score = Return z ->
  score <= z <= score + 3 * Z.of_nat (List.length variants).
Proof.
  revert score. induction variants as [ | a variants IH]; intros score Hz.
  - injection Hz as <-. simpl. lia.
  - cbn [antigen_loop] in Hz. cbn [List.length].
    destruct (value_get recipient_rh a) as [rv | ]; [ | discriminate Hz].
    cbn [bind] in Hz. destruct (truthy rv).
    + destruct (value_get donor_rh a) as [dv | ]; [ | discriminate Hz].
      cbn [bind] in Hz. apply IH in Hz. destruct (truthy dv); lia.
    + apply IH in Hz. lia.
Qed.

(** X7.  Whenever the rule-based score is returned, a donor of the
    recipient's own blood type scores between 70 and 100, and any other
    donor between 50 and 86: without the exact-match bonus the cap of 100
    is never reached. *)
Theorem rule_based_bounds_by_match (donor recipient : dict) (score : Z) :
  calculate_rule_based_score donor recipient = Return score ->
  if py_eq (get donor "bloodType") (get recipient "bloodType")
  then 70 <= score <= 100
  else 50 <= score <= 86.
Proof.
  unfold calculate_rule_based_score. intro H.
  destruct (antigen_loop _ _ _ _) as [z | ] eqn:Ez; [ | discriminate H].
  apply antigen_loop_bounds in Ez. cbn [List.length] in Ez. cbn [bind] in H.
  destruct (py_gt _ 5) as [b | ]; [ | discriminate H]. cbn [bind] in H.
  injection H as <-. rewrite !antigen_bonus_eq, !bonus_if.
  repeat match goal with
         | |- context [bonus ?c ?p] =>
             let Hb := fresh "Hb" in
             pose proof (bonus_range c p ltac:(lia)) as Hb;
             generalize dependent (bonus c p); intros
         end.
  destruct (py_eq _ _); lia.
Qed.

Lemma rule_based_bounds_by_match_witness :
  50 <= 50 <= 86 /\ 70 <= 80 <= 100.
Proof.
  split.
  - exact (rule_based_bounds_by_match (donor_of "O-") urgent_request_critical
             50 eq_refl).
  - exact (rule_based_bounds_by_match
             (("willingForEmergency", VBool true) :: donor_of "O+")
             urgent_request_critical 80 eq_refl).
Defined.

(** ** Scoring on the batch path *)

Lemma donor_score_raise (model : option Model) (donor recipient : dict) (e : exn) :
  donor_score model donor recipient = Raise e ->
  calculate_rule_based_score donor recipient = Raise e.
Proof.
  unfold donor_score, rule_based.
  destruct (calculate_rule_based_score donor recipient) as [z | e'].
  - destruct model as [m | ]; cbn [bind try_except]; [ | discriminate].
    destruct (prepare_features donor recipient) as [f | ];
      cbn [bind try_except]; [ | discriminate].
    destruct (model_score m f); cbn [try_except]; discriminate.
  - destruct model as [m | ]; cbn [bind try_except]; [ | congruence].
    destruct (prepare_features donor recipient) as [f | ];
      cbn [bind try_except]; [ | congruence].
    destruct (model_score m f); cbn [try_except]; [discriminate | congruence].
Qed.

Lemma donor_score_return (model : option Model) (donor recipient : dict) (z : Z) :
  calculate_rule_based_score donor recipient = Return z ->
  exists score, donor_score model donor recipient = Return score.
Proof.
  intro H. destruct (donor_score model donor recipient) as [s | e] eqn:E;
    [eauto | ].
  apply donor_score_raise in E. congruence.
Qed.

(** X8.  On the batch path the score of a donor fails only when the
    rule-based score fails, and then with the rule-based exception: no
    failure of the encoder or of the model gets through.  Whenever the
    rule-based score is defined a score is produced, and without a model
    it is the rule-based score. *)
Theorem batch_score_fails_only_with_rule_based (model : option Model)
  (donor recipient : dict) :
  (forall e,
      donor_score model donor recipient = Raise e ->
      calculate_rule_based_score donor recipient = Raise e)
  /\ (forall z,
        calculate_rule_based_score donor recipient = Return z ->
        exists score, donor_score model donor recipient = Return score)
  /\ donor_score None donor recipient = rule_based donor recipient.
Proof.
  repeat split.
  - apply donor_score_raise.
  - apply donor_score_return.
  - unfold donor_score. now destruct (rule_based donor recipient).
Qed.

(** ** The ranking as a whole *)

Section SortPermutation.
Context {A : Type} (key : A -> number).

Lemma insert_sorted_permutation (x : A) (l : list A) :
  Permutation (insert_sorted key x l) (x :: l).
Proof.
  induction l as [ | y l IH]; simpl; [reflexivity | ].
  destruct (num_lt (key y) (key x)); [ | reflexivity].
  rewrite IH. apply perm_swap.
Qed.

Lemma stable_sort_permutation (l : list A) : Permutation (stable_sort key l) l.
Proof.
  induction l as [ | x l IH]; simpl; [reflexivity | ].
  rewrite insert_sorted_permutation. now constructor.
Qed.

Lemma py_sort_permutation (reverse : bool) (l : list A) :
  Permutation (py_sort key reverse l) l.
Proof.
  unfold py_sort. destruct reverse.
  - rewrite <- Permutation_rev, stable_sort_permutation.
    symmetry. apply Permutation_rev.
  - apply stable_sort_permutation.
Qed.
End SortPermutation.

Lemma passes_filters_types (donor recipient : dict) :
  py_in (get donor "bloodType")
    (strs (get_compatible_donor_types
             (get_default recipient "bloodType" (VStr ""))))
  && negb (has_hard_stop donor)
  = passes_filters donor recipient.
Proof. reflexivity. Qed.

Lemma match_loop_scores_returned (model : option Model) (recipient : dict)
  (donors : list dict) (acc ms : list match_result) :
  match_loop model recipient
    (get_compatible_donor_types (get_default recipient "bloodType" (VStr "")))
    donors acc = Return ms ->
  forall d, In d donors -> passes_filters d recipient = true ->
            exists score, donor_score model d recipient = Return score.
Proof.
  revert acc. induction donors as [ | d0 donors IH]; intros acc H d Hin Hp.
  - destruct Hin.
  - destruct (passes_filters d0 recipient) eqn:E.
    + rewrite match_loop_keep in H by exact E.
      destruct (donor_score model d0 recipient) as [s | ] eqn:Es;
        [ | discriminate H].
      cbn [bind] in H. destruct Hin as [<- | Hin]; [eauto | ].
      eapply IH; eassumption.
    + rewrite match_loop_skip in H by exact E.
      destruct Hin as [<- | Hin]; [congruence | ].
      eapply IH; eassumption.
Qed.

Lemma match_loop_returns (model : option Model) (recipient : dict)
  (donors : list dict) (acc : list match_result) :
  (forall d, In d donors -> passes_filters d recipient = true ->
             exists score, donor_score model d recipient = Return score) ->
  exists ms,
    match_loop model recipient
      (get_compatible_donor_types (get_default recipient "bloodType" (VStr "")))
      donors acc = Return ms.
Proof.
  revert acc. induction donors as [ | d donors IH]; intros acc H.
  - simpl. eauto.
  - destruct (passes_filters d recipient) eqn:E.
    + rewrite match_loop_keep by exact E.
      destruct (H d (or_introl eq_refl) E) as [s ->]. cbn [bind].
      apply IH. intros d' Hin. apply H. now right.
    + rewrite match_loop_skip by exact E.
      apply IH. intros d' Hin. apply H. now right.
Qed.

Lemma candidates_length (model : option Model) (recipient : dict)
  (donors : list dict) :
  (forall d, In d donors -> passes_filters d recipient = true ->
             exists score, donor_score model d recipient = Return score) ->
  List.length (candidates model recipient donors)
  = List.length (filter (fun d => passes_filters d recipient) donors).
Proof.
  induction donors as [ | d donors IH]; intro H; [reflexivity | ].
  unfold candidates in *. cbn [flat_map filter]. rewrite length_app.
  rewrite IH by (intros d' Hin; apply H; now right).
  unfold candidate. fold (passes_filters d recipient).
  destruct (passes_filters d recipient) eqn:E; [ | reflexivity].
  destruct (H d (or_introl eq_refl) E) as [s ->]. reflexivity.
Qed.

Lemma candidates_origin (model : option Model) (recipient : dict)
  (donors : list dict) (m : match_result) :
  In m (candidates model recipient donors) ->
  exists d score,
    In d donors /\ passes_filters d recipient = true
    /\ donor_score model d recipient = Return score
    /\ m = make_match d score.
Proof.
  unfold candidates. intro H. apply in_flat_map in H as [d [Hd Hm]].
  unfold candidate in Hm. fold (passes_filters d recipient) in Hm.
  destruct (passes_filters d recipient) eqn:E; [ | destruct Hm].
  destruct (donor_score model d recipient) as [s | ] eqn:Es; [ | destruct Hm].
  destruct Hm as [<- | []]. exists d, s. auto.
Qed.

Lemma match_donors_matches (model : option Model) (now : string)
  (recipient : dict) (donors : list dict) (resp : match_response) :
  match_donors model now recipient donors = Ok200 resp ->
  matches resp = py_sort compatibilityScore true (candidates model recipient donors)
  /\ totalMatchesFound resp = List.length (matches resp)
  /\ modelUsed resp = is_loaded model
  /\ forall d, In d donors -> passes_filters d recipient = true ->
               exists score, donor_score model d recipient = Return score.
Proof.
  unfold match_donors, match_donors_body. intro H.
  destruct (match_loop model recipient _ donors []) as [ms | e] eqn:E;
    [ | discriminate H].
  cbn [bind handle] in H. injection H as <-.
  cbn [matches totalMatchesFound modelUsed].
  pose proof (match_loop_scores_returned _ _ _ _ _ E) as Hs.
  apply match_loop_candidates in E. simpl in E. subst ms. auto.
Qed.

(** X9.  When a ranking is returned, the match list is a rearrangement of
    one match per donor that passes the blood-type and hard-stop filters:
    none is lost or repeated, and totalMatchesFound is the number of those
    donors.  Temporary deferrals do not remove a donor. *)
Theorem ranking_keeps_every_passing_donor (model : option Model) (now : string)
  (recipient : dict) (donors : list dict) (resp : match_response) :
  match_donors model now recipient donors = Ok200 resp ->
  Permutation (matches resp) (candidates model recipient donors)
  /\ totalMatchesFound resp = List.length (matches resp)
  /\ totalMatchesFound resp
     = List.length (filter (fun d => passes_filters d recipient) donors).
Proof.
  intro H. apply match_donors_matches in H as [Hm [Ht [_ Hs]]].
  assert (Hp : Permutation (matches resp) (candidates model recipient donors))
    by (rewrite Hm; apply py_sort_permutation).
  repeat split; [exact Hp | exact Ht | ].
  rewrite Ht, (Permutation_length Hp). now apply candidates_length.
Qed.

Lemma ranking_keeps_every_passing_donor_witness :
  exists resp,
    match_donors None noon (donor_of "AB+") (tattoo_donor :: mixed_donors)
    = Ok200 resp
    /\ totalMatchesFound resp = 5%nat.
Proof.
  eexists. split; [vm_compute; reflexivity | ].
  destruct (ranking_keeps_every_passing_donor None noon (donor_of "AB+")
              (tattoo_donor :: mixed_donors) _ eq_refl) as [_ [_ H]].
  exact H.
Defined.

(** X10.  Every match of a returned ranking was built from a donor of the
    input list that passes both filters: it carries that donor's blood
    type and temporary-deferral warnings, it names the blood type in its
    single match reason, and isEligible is true exactly when the warnings
    are empty. *)
Theorem ranking_matches_come_from_donors (model : option Model) (now : string)
  (recipient : dict) (donors : list dict) (resp : match_response) :
  match_donors model now recipient donors = Ok200 resp ->
  forall m, In m (matches resp) ->
    exists d,
      In d donors
      /\ passes_filters d recipient = true
      /\ donorBloodType m = get d "bloodType"
      /\ (exists s, In s (get_compatible_donor_types
                            (get_default recipient "bloodType" (VStr "")))
                    /\ donorBloodType m = VStr s
                    /\ matchReasons m = [("Blood type " ++ s ++ " compatible")%string])
      /\ warnings m = check_temporary_deferrals d
      /\ (isEligible m = true <-> warnings m = []).
Proof.
  intros H m Hm. apply match_donors_matches in H as [Heq _].
  rewrite Heq in Hm.
  apply (Permutation_in _ (py_sort_permutation compatibilityScore true _)) in Hm.
  apply candidates_origin in Hm as [d [score [Hd [Hp [_ ->]]]]].
  exists d. repeat split; try assumption.
  - unfold passes_filters in Hp. apply andb_true_iff in Hp as [Hc _].
    apply py_in_strs in Hc as [s [Hs Hin]]. exists s.
    cbn [donorBloodType matchReasons make_match]. rewrite Hs. auto.
  - cbn [isEligible warnings make_match].
    destruct (check_temporary_deferrals d); [reflexivity | discriminate].
  - cbn [isEligible warnings make_match]. now intros ->.
Qed.

Lemma ranking_matches_come_from_donors_witness :
  exists resp m,
    match_donors None noon (donor_of "AB+") [hiv_donor; tattoo_donor] = Ok200 resp
    /\ matches resp = [m]
    /\ warnings m = ["Recent tattoo"]%string
    /\ (isEligible m = true <-> warnings m = []).
Proof.
  do 2 eexists. split; [vm_compute; reflexivity | ].
  split; [reflexivity | ]. split; [reflexivity | ].
  destruct (ranking_matches_come_from_donors None noon (donor_of "AB+")
              [hiv_donor; tattoo_donor] _ eq_refl _ (or_introl eq_refl))
    as [d [_ [_ [_ [_ [_ H]]]]]].
  exact H.
Defined.

(** X11.  The ranking is returned, whatever the model does, as soon as
    every donor that passes the filters has fields the rule-based score can
    read ([rhVariants] readable, [totalDonations] a number or absent). *)
Theorem ranking_returns_when_rule_fields_readable (model : option Model)
  (now : string) (recipient : dict) (donors : list dict) :
  (forall d, In d donors -> passes_filters d recipient = true ->
             rh_readable d recipient = true /\ donations_numeric d = true) ->
  exists resp, match_donors model now recipient donors = Ok200 resp.
Proof.
  intro H. unfold match_donors, match_donors_body.
  destruct (match_loop_returns model recipient donors []) as [ms ->].
  - intros d Hin Hp. destruct (H d Hin Hp) as [Hr Hn].
    destruct (rule_based_cases d recipient)
      as [[Hr' _] | [[_ [Hn' _]] | [_ [_ [z Hz]]]]]; try congruence.
    eapply donor_score_return; eassumption.
  - cbn [bind handle]. eauto.
Qed.

Lemma ranking_returns_when_rule_fields_readable_witness :
  exists resp,
    match_donors (Some broken_model) noon urgent_request
      [donor_of "O-"; hiv_donor; no_blood_type_donor] = Ok200 resp.
Proof.
  apply ranking_returns_when_rule_fields_readable.
  intros d Hin Hp. simpl in Hin. split_cases Hin; try contradiction; subst d;
    try discriminate Hp; split; reflexivity.
Defined.

(** ** Priorities without a model *)

Lemma num_le_int (a b : Z) : num_le (Int a) (Int b) = (a <=? b).
Proof.
  unfold num_le, Qle_bool. cbn [numQ inject_Z Qnum Qden].
  now rewrite !Z.mul_1_r.
Qed.

(** X12.  Without a model every match of a returned ranking carries an
    integer score between 50 and 100, and its priority is "high" from 80
    up and "medium" below: a match is never of "low" priority. *)
Theorem rule_based_ranking_priorities (now : string) (recipient : dict)
  (donors : list dict) (resp : match_response) :
  match_donors None now recipient donors = Ok200 resp ->
  forall m, In m (matches resp) ->
    exists z,
      compatibilityScore m = Int z
      /\ 50 <= z <= 100
      /\ priority m = (if 80 <=? z then "high" else "medium").
Proof.
  intros H m Hm. apply match_donors_matches in H as [Heq _].
  rewrite Heq in Hm.
  apply (Permutation_in _ (py_sort_permutation compatibilityScore true _)) in Hm.
  apply candidates_origin in Hm as [d [score [_ [_ [Hs ->]]]]].
  unfold donor_score, rule_based, try_except in Hs.
  destruct (calculate_rule_based_score d recipient) as [z | ] eqn:Ez;
    cbn [bind] in Hs; [ | discriminate Hs].
  injection Hs as <-. apply rule_based_score_range in Ez.
  exists z. cbn [compatibilityScore priority make_match round1].
  repeat split; try lia.
  unfold priority_of. rewrite !num_le_int.
  destruct (80 <=? z); [reflexivity | ].
  destruct (50 <=? z) eqn:E; [reflexivity | ].
  apply Z.leb_gt in E. lia.
Qed.

Lemma rule_based_ranking_priorities_witness :
  exists resp m,
    match_donors None noon urgent_request_critical
      [("willingForEmergency", VBool true) :: donor_of "O+"] = Ok200 resp
    /\ matches resp = [m]
    /\ exists z,
        compatibilityScore m = Int z /\ 50 <= z <= 100
        /\ priority m = (if 80 <=? z then "high" else "medium").
Proof.
  do 2 eexists. split; [vm_compute; reflexivity | ].
  split; [reflexivity | ].
  apply (rule_based_ranking_priorities noon urgent_request_critical
           [("willingForEmergency", VBool true) :: donor_of "O+"] _ eq_refl).
  now left.
Defined.

(** ** A model that never answers *)

Lemma match_loop_same_scores (model model' : option Model) (recipient : dict)
  (types : list string) (donors : list dict) (acc : list match_result) :
  (forall d, donor_score model d recipient = donor_score model' d recipient) ->
  match_loop model recipient types donors acc
  = match_loop model' recipient types donors acc.
Proof.
  intro H. revert acc. induction donors as [ | d donors IH]; intro acc.
  - reflexivity.
  - cbn [match_loop]. rewrite H.
    destruct (negb (py_in _ _)); [apply IH | ].
    destruct (negb (Nat.eqb _ 0)); [apply IH | ].
    destruct (donor_score model' d recipient); cbn [bind]; [apply IH | reflexivity].
Qed.

(** X13.  With a loaded model none of whose calls succeeds, the ranking
    is the one computed without a model, error body included, except that
    modelUsed is true: the flag, like model_loaded of the health body,
    tells that a model is loaded, not that it produced the scores. *)
Theorem failing_model_ranks_like_no_model (m : Model) (now : string)
  (recipient : dict) (donors : list dict) :
  always_fails m ->
  match_donors (Some m) now recipient donors
  = with_model_used (match_donors None now recipient donors)
  /\ model_loaded (health (Some m)) = true
  /\ model_loaded (health None) = false.
Proof.
  intro Hfail. repeat split.
  unfold match_donors, match_donors_body.
  rewrite (match_loop_same_scores (Some m) None).
  - destruct (match_loop None recipient _ donors []); reflexivity.
  - intro d. rewrite donor_score_fallback by (intros f _; apply Hfail).
    unfold donor_score. now destruct (rule_based d recipient).
Qed.

Lemma failing_model_ranks_like_no_model_witness :
  match_donors (Some broken_model) noon (donor_of "AB+") mixed_donors
  = with_model_used (match_donors None noon (donor_of "AB+") mixed_donors).
Proof.
  apply (failing_model_ranks_like_no_model broken_model noon (donor_of "AB+")
           mixed_donors).
  intro features. eexists. reflexivity.
Defined.

(** ** Scores of a well-behaved classifier *)

Lemma round_half_even_range (t : Q) :
  (0 <= t)%Q -> (t <= 1000)%Q -> 0 <= round_half_even t <= 1000.
Proof.
  intros H0 H1. unfold round_half_even.
  pose proof (Qfloor_le t) as Hle. pose proof (Qlt_floor t) as Hlt.
  assert (Hf0 : 0 <= Qfloor t).
  { apply Qfloor_resp_le in H0. exact H0. }
  assert (Hf1 : Qfloor t <= 1000).
  { apply Qfloor_resp_le in H1. exact H1. }
  assert (Hup : (inject_Z (Qfloor t) < t)%Q -> Qfloor t + 1 <= 1000).
  { intro Hbelow. assert (Hz : Qfloor t < 1000); [ | lia].
    rewrite Zlt_Qlt. eapply Qlt_le_trans; eassumption. }
  destruct (Qcompare_spec (t - inject_Z (Qfloor t)) (1 # 2)) as [He | Hl | Hg].
  - destruct (Z.even (Qfloor t)); [lia | ].
    split; [lia | ]. apply Hup. lra.
  - lia.
  - split; [lia | ]. apply Hup. lra.
Qed.

Lemma in_range_iff (score : number) :
  in_range score = true <-> score_in_range score.
Proof.
  unfold in_range, score_in_range, num_le. cbn [numQ].
  rewrite andb_true_iff, !Qle_bool_iff. reflexivity.
Qed.

Lemma round1_in_range (score : number) :
  score_in_range score -> score_in_range (round1 score).
Proof.
  destruct score as [z | q]; [auto | ].
  unfold score_in_range. cbn [round1 numQ]. intros [H0 H1].
  destruct (round_half_even_range (q * 10)) as [Hz0 Hz1]; [lra | lra | ].
  unfold Qle. cbn [Qnum Qden]. lia.
Qed.

Lemma item_In (xs : list Q) (i : nat) (x : Q) :
  item xs i = Return x -> In x xs.
Proof.
  unfold item. destruct (nth_error xs i) eqn:E; intro H; [ | discriminate H].
  injection H as <-. eapply nth_error_In. eassumption.
Qed.

Lemma model_score_in_range (m : Model) (features : list value) (score : number) :
  probabilities_valid m ->
  model_score m features = Return score ->
  score_in_range score.
Proof.
  intros [Hhas Hvalid] H. unfold model_score in H. rewrite Hhas in H.
  destruct (predict_proba m features) as [proba | ] eqn:Ep; [ | discriminate H].
  cbn [bind] in H. specialize (Hvalid _ _ Ep).
  assert (Hitem : forall i p, item proba i = Return p ->
                              score_in_range (Float (p * 100))).
  { intros i p Hp. apply item_In in Hp.
    rewrite Forall_forall in Hvalid. destruct (Hvalid p Hp) as [Hp0 Hp1].
    unfold score_in_range. cbn [numQ]. split; lra. }
  destruct (1 <? List.length proba)%nat.
  - destruct (item proba 1) as [p | ] eqn:E; [ | discriminate H].
    cbn [bind] in H. injection H as <-. eapply Hitem. eassumption.
  - destruct (item proba 0) as [p | ] eqn:E; [ | discriminate H].
    cbn [bind] in H. injection H as <-. eapply Hitem. eassumption.
Qed.

Lemma rule_based_in_score_range (donor recipient : dict) (score : number) :
  rule_based donor recipient = Return score -> score_in_range score.
Proof.
  unfold rule_based. intro H.
  destruct (calculate_rule_based_score donor recipient) as [z | ] eqn:Ez;
    [ | discriminate H].
  cbn [bind] in H. injection H as <-. apply rule_based_score_range in Ez.
  unfold score_in_range. cbn [numQ]. split.
  - change 0%Q with (inject_Z 0). rewrite <- Zle_Qle. lia.
  - change 100%Q with (inject_Z 100). rewrite <- Zle_Qle. lia.
Qed.

(** X14.  With a classifier whose probabilities all lie in 0..1, every
    compatibilityScore of a returned ranking lies in 0..100, whether it
    came from the classifier or from the rule-based fallback: rounding to
    one decimal does not leave the range. *)
Theorem classifier_ranking_in_range (m : Model) (now : string)
  (recipient : dict) (donors : list dict) (resp : match_response) :
  probabilities_valid m ->
  match_donors (Some m) now recipient donors = Ok200 resp ->
  Forall (fun mt => in_range (compatibilityScore mt) = true) (matches resp).
Proof.
  intros Hvalid H. apply match_donors_matches in H as [Heq _].
  apply Forall_forall. intros mt Hmt. rewrite Heq in Hmt.
  apply (Permutation_in _ (py_sort_permutation compatibilityScore true _)) in Hmt.
  apply candidates_origin in Hmt as [d [score [_ [_ [Hs ->]]]]].
  cbn [compatibilityScore make_match]. apply in_range_iff, round1_in_range.
  unfold donor_score in Hs.
  destruct (prepare_features d recipient) as [f | ]; cbn [bind try_except] in Hs.
  - destruct (model_score m f) as [s | ] eqn:Em; cbn [try_except] in Hs.
    + injection Hs as <-. eapply model_score_in_range; eassumption.
    + destruct (rule_based d recipient) as [s | ] eqn:Er; [ | discriminate Hs].
      injection Hs as <-. eapply rule_based_in_score_range; eassumption.
  - eapply rule_based_in_score_range; eassumption.
Qed.

Lemma classifier_ranking_in_range_witness :
  exists resp,
    match_donors (Some classifier) noon (donor_of "AB+") mixed_donors = Ok200 resp
    /\ Forall (fun mt => in_range (compatibilityScore mt) = true) (matches resp).
Proof.
  eexists. split; [vm_compute; reflexivity | ].
  apply (classifier_ranking_in_range classifier noon (donor_of "AB+") mixed_donors).
  - split; [reflexivity | ].
    intros features proba H. injection H as <-.
    repeat constructor; unfold Qle; simpl; lia.
  - reflexivity.
Defined.

(** ** Failure modes and value ranges of the encoder *)






Lemma position_not_in (s : string) (l : list string) :
  ~ In s l -> position s l = None.
Proof.
  induction l as [ | x l IH]; intro H; [reflexivity | ].
  cbn [position]. destruct (String.eqb_spec s x) as [-> | Hne].
  - exfalso. apply H. now left.
  - rewrite IH; [reflexivity | ]. intro Hin. apply H. now right.
Qed.

Lemma known_blood_type_listed (s : string) :
  In s blood_types -> known_blood_type (VStr s) = true.
Proof.
  intro H. unfold blood_types in H. simpl In in H.
  split_cases H; try contradiction; subst s; reflexivity.
Qed.

Lemma blood_ordinal_range (field : option value) :
  0 <= blood_ordinal field <= 7.
Proof.
  unfold blood_ordinal. destruct field as [[ | | | s | | ] | ]; try lia.
  destruct (known_blood_type (VStr s)) eqn:E.
  - apply known_blood_type_name in E as [R HR]. injection HR as ->.
    destruct R as [[] []]; vm_compute; split; discriminate.
  - rewrite position_not_in; [lia | ].
    intro Hin. apply known_blood_type_listed in Hin. congruence.
Qed.

(** X16.  The blood type entry of the encoder is always an index between
    0 and 7.  It is 0 both for A+ and for every record whose blood type is
    missing or not one of the eight types, so index 0 does not tell A+
    from unknown; two records with known blood types get the same index
    only if the blood types are equal. *)
Theorem blood_type_index_zero_is_ambiguous (person : dict) :
  (exists i, blood_type_feature person = Return (int i) /\ 0 <= i <= 7)
  /\ (blood_type_feature person = Return (int 0)
      <-> get person "bloodType" = VStr "A+"
          \/ known_blood_type (get person "bloodType") = false)
  /\ (forall person',
        known_blood_type (get person "bloodType") = true ->
        known_blood_type (get person' "bloodType") = true ->
        blood_type_feature person = blood_type_feature person' ->
        get person "bloodType" = get person' "bloodType").
Proof.
  split; [ | split].
  - rewrite blood_type_feature_ordinal. eexists. split; [reflexivity | ].
    apply blood_ordinal_range.
  - rewrite blood_type_feature_ordinal. unfold get.
    destruct (lookup "bloodType" person) as [v | ];
      [ | split; [now right | reflexivity]].
    destruct (known_blood_type v) eqn:E.
    + apply known_blood_type_name in E as [R ->].
      destruct R as [[] []]; vm_compute; split;
        solve [ intro H; discriminate H
              | intros [H | H]; discriminate H
              | intros _; reflexivity
              | intros _; left; reflexivity ].
    + split; [now right | ]. intros _.
      destruct v as [ | | | s | | ]; try reflexivity.
      unfold blood_ordinal. rewrite position_not_in; [reflexivity | ].
      intro Hin. apply known_blood_type_listed in Hin. congruence.
  - intros person' Hk Hk' Heq. rewrite !blood_type_feature_ordinal in Heq.
    unfold get in *.
    destruct (lookup "bloodType" person) as [v | ]; [ | discriminate Hk].
    destruct (lookup "bloodType" person') as [v' | ]; [ | discriminate Hk'].
    apply known_blood_type_name in Hk as [R ->].
    apply known_blood_type_name in Hk' as [R' ->].
    destruct R as [[] []], R' as [[] []]; try reflexivity;
      vm_compute in Heq; discriminate Heq.
Qed.

Lemma blood_type_index_zero_is_ambiguous_witness :
  blood_type_feature (donor_of "A+") = Return (int 0)
  /\ blood_type_feature no_blood_type_donor = Return (int 0)
  /\ blood_type_feature (donor_of "a+") = Return (int 0).
Proof.
  split; [ | split].
  - apply (proj1 (proj2 (blood_type_index_zero_is_ambiguous (donor_of "A+")))).
    now left.
  - apply (proj1 (proj2 (blood_type_index_zero_is_ambiguous no_blood_type_donor))).
    now right.
  - apply (proj1 (proj2 (blood_type_index_zero_is_ambiguous (donor_of "a+")))).
    now right.
Defined.





(** ** Fallback on the single-pair path *)

Lemma predict_model_failure_falls_back_witness :
  predict (Some broken_model) (donor_of "O+") (donor_of "O+")
  = Ok200 (Scored true (Int 70) (check_temporary_deferrals (donor_of "O+")) true).
Proof.
  assert (Hf : exists f, prepare_features (donor_of "O+") (donor_of "O+") = Return f)
    by (eexists; vm_compute; reflexivity).
  destruct Hf as [f Hf].
  apply (predict_model_failure_falls_back broken_model (donor_of "O+") (donor_of "O+")
           f (ModelError "feature shape mismatch") 70);
    try reflexivity; exact Hf.
Defined.

(** ** Errors of the ranking, and agreement of the two handlers *)

Lemma match_loop_raise_origin (model : option Model) (recipient : dict)
  (donors : list dict) (acc : list match_result) (e : exn) :
  match_loop model recipient
    (get_compatible_donor_types (get_default recipient "bloodType" (VStr "")))
    donors acc = Raise e ->
  exists d, In d donors /\ passes_filters d recipient = true
            /\ donor_score model d recipient = Raise e.
Proof.
  revert acc. induction donors as [ | d donors IH]; intros acc H;
    [discriminate H | ].
  destruct (passes_filters d recipient) eqn:E.
  - rewrite match_loop_keep in H by exact E.
    destruct (donor_score model d recipient) as [s | e'] eqn:Es; cbn [bind] in H.
    + apply IH in H as [d' [Hin H]]. exists d'. split; [now right | exact H].
    + injection H as <-. exists d. split; [now left | split; [exact E | exact Es]].
  - rewrite match_loop_skip in H by exact E.
    apply IH in H as [d' [Hin H]]. exists d'. split; [now right | exact H].
Qed.

(** X19.  When the ranking ends in the error body, the exception is the
    one the rule-based score raises on a donor of the list that passes
    both filters: an AttributeError or a TypeError, never an exception of
    the encoder or of the model. *)
Theorem ranking_error_comes_from_rule_based (model : option Model)
  (now : string) (recipient : dict) (donors : list dict) (e : exn) :
  match_donors model now recipient donors = Error500 e ->
  (e = AttributeError \/ e = TypeError)
  /\ exists d,
      In d donors
      /\ passes_filters d recipient = true
      /\ calculate_rule_based_score d recipient = Raise e.
Proof.
  unfold match_donors, match_donors_body. intro H.
  destruct (match_loop model recipient _ donors []) as [ms | e'] eqn:E;
    cbn [bind handle] in H; [discriminate H | ].
  injection H as ->.
  apply match_loop_raise_origin in E as [d [Hin [Hp Hs]]].
  apply donor_score_raise in Hs. split; [ | eauto].
  destruct (rule_based_cases d recipient)
    as [[_ Hc] | [[_ [_ Hc]] | [_ [_ [z Hc]]]]]; rewrite Hc in Hs;
    try discriminate Hs; injection Hs as <-; auto.
Qed.

Lemma ranking_error_comes_from_rule_based_witness :
  (TypeError = AttributeError \/ TypeError = TypeError)
  /\ exists d,
      In d [donor_of "O+"; malformed_donor]
      /\ passes_filters d (donor_of "O+") = true
      /\ calculate_rule_based_score d (donor_of "O+") = Raise TypeError.
Proof.
  exact (ranking_error_comes_from_rule_based (Some broken_model) noon
           (donor_of "O+") [donor_of "O+"; malformed_donor] TypeError eq_refl).
Defined.

(** X20.  Without a model the two handlers agree on every pair: if
    [predict] rejects the donor, the ranking of that donor alone is empty;
    if it scores the donor, the ranking holds one match with the same
    score and warnings; if it ends in the error body, so does the ranking,
    with the same exception. *)
Theorem handlers_agree_without_model (now : string) (donor recipient : dict) :
  match predict None donor recipient with
  | Ok200 (Rejected _ _ _) =>
      exists resp,
        match_donors None now recipient [donor] = Ok200 resp
        /\ matches resp = []
  | Ok200 (Scored _ score ws _) =>
      exists resp m,
        match_donors None now recipient [donor] = Ok200 resp
        /\ matches resp = [m]
        /\ compatibilityScore m = score
        /\ warnings m = ws
  | Error500 e => match_donors None now recipient [donor] = Error500 e
  end.
Proof.
  unfold predict, predict_body, match_donors, match_donors_body.
  cbn [match_loop]. unfold donor_score, rule_based, try_except.
  destruct (negb (py_in _ _)); cbn [bind handle];
    [eexists; split; reflexivity | ].
  destruct (negb (Nat.eqb _ 0)); cbn [bind handle];
    [eexists; split; reflexivity | ].
  destruct (calculate_rule_based_score donor recipient) as [z | e] eqn:Ez;
    cbn [bind handle]; [ | reflexivity].
  apply rule_based_score_range in Ez.
  do 2 eexists. split; [reflexivity | ].
  cbn [matches py_sort rev stable_sort insert_sorted app].
  split; [reflexivity | ].
  cbn [compatibilityScore warnings make_match round1].
  split; [ | reflexivity].
  unfold py_max, py_min, num_lt. cbn [numQ].
  assert (H0 : Qle_bool (inject_Z z) (inject_Z 0) = false).
  { destruct (Qle_bool _ _) eqn:E; [ | reflexivity].
    apply Qle_bool_iff in E. rewrite <- Zle_Qle in E. lia. }
  rewrite H0. cbn [negb numQ].
  destruct (Qle_bool (inject_Z 100) (inject_Z z)) eqn:E; cbn [negb];
    [ | reflexivity].
  apply Qle_bool_iff in E. rewrite <- Zle_Qle in E. f_equal. lia.
Qed.
